(** * Large-file scanner: [scripts/find_large_files.py] and
      [scripts/find_large_files_v2.py]

    A shallow embedding of the two [check_files] functions and of the
    library calls they rely on ([os.walk], [os.path.join], [str.endswith],
    [list.remove], [list.sort]), followed by the properties of the scan. *)

From Stdlib Require Import List String Ascii ZArith Lia Bool Permutation Sorted.
From Stdlib Require Import DecimalString.
Import ListNotations.
Local Open Scope string_scope.
Local Open Scope Z_scope.
Set Warnings "-register-all".

(** ** The file tree that the scan reads *)

(** What [open(filepath, 'r', encoding='utf-8', errors='ignore')] followed by
    [f.readlines()] gives for one path: the list of lines, or an exception
    whose [str] is [msg]. *)
Inductive readlines_result : Type :=
| Lines (ls : list string)
| Raises (msg : string).

(** A node of the tree.  [File] is anything [os.scandir] does not classify as
    a directory; [Dir islink scan] is a directory (or a symbolic link to one,
    when [islink] holds) and [scan] is what [os.scandir] returns for it:
    [None] when it raises [OSError], the entries in enumeration order
    otherwise. *)
Inductive node : Type :=
| File (content : readlines_result)
| Dir (islink : bool) (scan : option (list (string * node))).

(** The file system as the scan sees it: what each root path resolves to,
    [None] when the path does not exist. *)
Definition filesystem : Type := string -> option node.

Definition is_dir (n : node) : bool :=
  match n with Dir _ _ => true | File _ => false end.

Definition islink (n : node) : bool :=
  match n with Dir l _ => l | File _ => false end.

(** ** Python built-ins used by the scripts *)

Definition nl : string := String (ascii_of_nat 10) EmptyString.

(** [x in l] for a list of strings. *)
Fixpoint py_in (x : string) (l : list string) : bool :=
  match l with
  | [] => false
  | y :: l' => if String.eqb y x then true else py_in x l'
  end.

(** [l.remove(x)]: drops the first occurrence of [x].  Python raises
    [ValueError] when [x] is absent; both scripts call it only under an
    [in] test, so the absent case returns the list as it is. *)
Fixpoint py_remove (x : string) (l : list string) : list string :=
  match l with
  | [] => []
  | y :: l' => if String.eqb y x then l' else y :: py_remove x l'
  end.

(** [s.endswith(suf)]. *)
Fixpoint py_endswith (s suf : string) : bool :=
  if String.eqb s suf then true
  else match s with
       | EmptyString => false
       | String _ s' => py_endswith s' suf
       end.

(** [s.endswith(sufs)] for a tuple of suffixes. *)
Definition py_endswith_any (s : string) (sufs : list string) : bool :=
  existsb (py_endswith s) sufs.

(** [str(n)] for an integer. *)
Definition py_str (n : Z) : string := NilZero.string_of_int (Z.to_int n).

(** [l.sort(reverse=True, key=key)]: the sort is stable, also under
    [reverse=True], so the result is the stable arrangement of [l] by
    decreasing key. *)
Section Sort.
Context {A : Type} (key : A -> Z).

Fixpoint insert_desc (x : A) (l : list A) : list A :=
  match l with
  | [] => [x]
  | y :: l' => if key x <? key y then y :: insert_desc x l' else x :: l
  end.

Definition py_sort_reverse (l : list A) : list A :=
  fold_right insert_desc [] l.
End Sort.

(** ** [os.walk] *)

Definition lookup {B : Type} (x : string) (l : list (string * B)) : option B :=
  option_map snd (find (fun p => String.eqb (fst p) x) l).

(** The [dirs] and the [files] that [os.walk] yields for a directory with
    the entries [es]; each file comes with what reading it gives. *)
Definition dir_names (es : list (string * node)) : list string :=
  map fst (filter (fun p => is_dir (snd p)) es).

Fixpoint nondirs (es : list (string * node)) : list (string * readlines_result) :=
  match es with
  | [] => []
  | (name, File r) :: es' => (name, r) :: nondirs es'
  | (_, Dir _ _) :: es' => nondirs es'
  end.

Section OsWalk.
(** [os.path.join] on two components belongs to the platform. *)
Variable path_join : string -> string -> string.
Context {S : Type}.

(** The body of the caller's [for root, dirs, files in os.walk(..)] loop:
    it receives the directory path, the names of the subdirectories and
    the other entries, and the caller's state; it returns [dirs] as the
    body left it, which is what [os.walk] descends into, and the new
    state. *)
Variable body :
  string -> list string -> list (string * readlines_result) -> S ->
  list string * S.

(** [os.walk(top)] with [topdown=True, onerror=None, followlinks=False],
    run together with the loop body, on the node that [top] names.  A
    failing [os.scandir] ends the walk of that directory silently; a name
    left in [dirs] is walked as [join(top, name)] unless it is a symbolic
    link. *)
Fixpoint walk (n : node) (top : string) (st : S) {struct n} : S :=
  match n with
  | File _ => st
  | Dir _ None => st
  | Dir _ (Some es) =>
      let subdirs :=
        filter (fun q => is_dir (fst (snd q)))
               (map (fun p => (fst p, (snd p, walk (snd p)))) es) in
      let '(dirs, st1) := body top (dir_names es) (nondirs es) st in
      fold_left
        (fun st' dirname =>
           match lookup dirname subdirs with
           | Some (d, descend) =>
               if islink d then st' else descend (path_join top dirname) st'
           | None => st'
           end)
        dirs st1
  end.

Definition os_walk (fs : filesystem) (top : string) (st : S) : S :=
  match fs top with
  | Some n => walk n top st
  | None => st
  end.
End OsWalk.

(** ** What the two scripts share *)

(** One element of [large_files]: the tuple [(lines, status, filepath)]. *)
Definition finding : Type := Z * string * string.

Definition count_of (f : finding) : Z := fst (fst f).

(** A text sink (standard output, or the open report file), as the
    sequence of texts written to it. *)
Definition stream : Type := list string.

(** [print(s)] on standard output. *)
Definition print (s : string) (stdout : stream) : stream :=
  (stdout ++ [(s ++ nl)%string])%list.

(** [out.write(s)]. *)
Definition write (s : string) (out : stream) : stream := (out ++ [s])%list.

(** The contents of the files a script writes, by path.  What writing a
    file does to the tree that the scan reads is the platform's business:
    see [open_w] in the second script. *)
Definition disk : Type := string -> option string.

(** Leaving [with open(output_file, "w", ..) as out]: the file holds what
    was written to [out] and nothing of its former contents. *)
Definition close (output_file : string) (out : stream) (d : disk) : disk :=
  fun p => if String.eqb p output_file then Some (String.concat "" out) else d p.

(** ** [scripts/find_large_files.py]: the console variant *)

Module find_large_files.
Section Script.
(** [os.path.join] and the [str] of the list of roots (Python's list
    [repr]) belong to the platform and the interpreter. *)
Variable path_join : string -> string -> string.
Variable str_list : list string -> string.

(** State of the scan: standard output and [large_files]. *)
Definition state : Type := stream * list finding.

(** Lines 17-28: one iteration of [for file in files]. *)
Definition file_step (warn_limit fail_limit : Z) (root : string)
    (st : state) (entry : string * readlines_result) : state :=
  let '(stdout, large_files) := st in
  let '(file, opened) := entry in
  if negb (py_endswith_any file
             [".js"; ".ts"; ".jsx"; ".tsx"; ".mjs"; ".cjs"; ".css"; ".html"])
  then st
  else
    let filepath := path_join root file in
    match opened with
    | Lines ls =>
        let lines := Z.of_nat (List.length ls) in
        if lines >? warn_limit then
          let status := if lines >? fail_limit then "FAIL" else "WARN" in
          (stdout, (large_files ++ [(lines, status, filepath)])%list)
        else st
    | Raises e =>
        (print ("Error reading " ++ filepath ++ ": " ++ e) stdout, large_files)
    end.

(** Lines 11-28: the body of [for root, dirs, files in os.walk(root_dir)]. *)
Definition walk_step (warn_limit fail_limit : Z) (root : string)
    (dirs : list string) (files : list (string * readlines_result))
    (st : state) : list string * state :=
  let dirs := if py_in "node_modules" dirs then py_remove "node_modules" dirs else dirs in
  let dirs := if py_in ".git" dirs then py_remove ".git" dirs else dirs in
  (dirs, fold_left (file_step warn_limit fail_limit root) files st).

(** Lines 9-28: [for root_dir in roots]. *)
Definition scan (fs : filesystem) (roots : list string)
    (warn_limit fail_limit : Z) (st : state) : state :=
  fold_left
    (fun st root_dir => os_walk path_join (walk_step warn_limit fail_limit) fs root_dir st)
    roots st.

(** Line 34: the text printed for one Finding. *)
Definition result_line (f : finding) : string :=
  let '(count, status, path) := f in
  "[" ++ status ++ "] " ++ py_str count ++ " lines: " ++ path.

(** [check_files(roots, warn_limit, fail_limit)].  The function returns
    nothing in Python; the model returns the final [large_files] and
    standard output. *)
Definition check_files (fs : filesystem) (roots : list string)
    (warn_limit fail_limit : Z) (stdout : stream) : list finding * stream :=
  let stdout :=
    print ("Checking files in " ++ str_list roots ++ " (Warn: "
             ++ py_str warn_limit ++ ", Fail: " ++ py_str fail_limit ++ ")") stdout in
  let large_files : list finding := [] in
  let '(stdout, large_files) :=
    scan fs roots warn_limit fail_limit (stdout, large_files) in
  let large_files := py_sort_reverse count_of large_files in
  let stdout := print (nl ++ "Results:") stdout in
  let stdout := fold_left (fun so f => print (result_line f) so) large_files stdout in
  (large_files, stdout).

(** Lines 36-37, with the default limits of the signature. *)
Definition main (fs : filesystem) (stdout : stream) : list finding * stream :=
  check_files fs ["src"; "dram-engine/src"] 500 700 stdout.
End Script.
End find_large_files.

(** ** [scripts/find_large_files_v2.py]: the report-file variant *)

Module find_large_files_v2.
Section Script.
Variable path_join : string -> string -> string.
Variable str_list : list string -> string.

(** [open(path, "w", ..)], when it succeeds, creates or empties the file
    that [path] names.  [open_w path fs] is the file system as the scan
    finds it while that file is open: how a path names a place in the trees
    (relative paths, links, other names of the same file) belongs to the
    platform. *)
Variable open_w : string -> filesystem -> filesystem.

(** State of the scan: the open report file and [large_files]. *)
Definition state : Type := stream * list finding.

(** Lines 18-29: one iteration of [for file in files]. *)
Definition file_step (warn_limit fail_limit : Z) (root : string)
    (st : state) (entry : string * readlines_result) : state :=
  let '(out, large_files) := st in
  let '(file, opened) := entry in
  if negb (py_endswith_any file
             [".js"; ".ts"; ".jsx"; ".tsx"; ".mjs"; ".cjs"; ".css"; ".html"])
  then st
  else
    let filepath := path_join root file in
    match opened with
    | Lines ls =>
        let lines := Z.of_nat (List.length ls) in
        if lines >? warn_limit then
          let status := if lines >? fail_limit then "FAIL" else "WARN" in
          (out, (large_files ++ [(lines, status, filepath)])%list)
        else st
    | Raises e =>
        (write ("Error reading " ++ filepath ++ ": " ++ e ++ nl) out, large_files)
    end.

(** Lines 12-29: the body of [for root, dirs, files in os.walk(root_dir)]. *)
Definition walk_step (warn_limit fail_limit : Z) (root : string)
    (dirs : list string) (files : list (string * readlines_result))
    (st : state) : list string * state :=
  let dirs := if py_in "node_modules" dirs then py_remove "node_modules" dirs else dirs in
  let dirs := if py_in ".git" dirs then py_remove ".git" dirs else dirs in
  (dirs, fold_left (file_step warn_limit fail_limit root) files st).

(** Lines 10-29: [for root_dir in roots]. *)
Definition scan (fs : filesystem) (roots : list string)
    (warn_limit fail_limit : Z) (st : state) : state :=
  fold_left
    (fun st root_dir => os_walk path_join (walk_step warn_limit fail_limit) fs root_dir st)
    roots st.

(** Line 35: the text written for one Finding. *)
Definition result_line (f : finding) : string :=
  let '(count, status, path) := f in
  "[" ++ status ++ "] " ++ py_str count ++ " lines: " ++ path ++ nl.

(** [check_files(roots, warn_limit, fail_limit, output_file)]; the model
    returns the final [large_files] and the disk.  Line 5 opens the report
    file before anything is scanned and lines 6-35 run with it open, so the
    walk reads the tree as the opening left it. *)
Definition check_files (fs : filesystem) (roots : list string)
    (warn_limit fail_limit : Z) (output_file : string) (d : disk)
    : list finding * disk :=
  let fs := open_w output_file fs in
  let out : stream := [] in
  let out :=
    write ("Checking files in " ++ str_list roots ++ " (Warn: "
             ++ py_str warn_limit ++ ", Fail: " ++ py_str fail_limit ++ ")" ++ nl) out in
  let large_files : list finding := [] in
  let '(out, large_files) :=
    scan fs roots warn_limit fail_limit (out, large_files) in
  let large_files := py_sort_reverse count_of large_files in
  let out := write (nl ++ "Results:" ++ nl) out in
  let out := fold_left (fun o f => write (result_line f) o) large_files out in
  (large_files, close output_file out d).

(** Lines 37-38, with the defaults of the signature. *)
Definition main (fs : filesystem) (d : disk) : list finding * disk :=
  check_files fs ["src"; "dram-engine/src"] 500 700 "large_files_report.txt" d.
End Script.
End find_large_files_v2.

(** ** A concrete platform and a sample tree *)

(** [posixpath.join(a, b)]. *)
Definition posix_join (a b : string) : string :=
  if String.prefix "/" b then b
  else if orb (String.eqb a "") (py_endswith a "/") then a ++ b
  else a ++ "/" ++ b.

(** [str] of a list of strings whose characters are printable ASCII other
    than the quotes and the backslash: each is shown between single quotes. *)
Definition ascii_str_list (l : list string) : string :=
  "[" ++ String.concat ", " (map (fun s => "'" ++ s ++ "'") l) ++ "]".

(** The parts of [s] between its ["/"]. *)
Fixpoint split_slash (s : string) : list string :=
  match s with
  | EmptyString => [EmptyString]
  | String c s' =>
      if Ascii.eqb c "/" then EmptyString :: split_slash s'
      else match split_slash s' with
           | [] => [String c EmptyString]
           | x :: l => String c x :: l
           end
  end.

(** The entries of a directory once the file [name] has been opened for
    writing in it: an existing file is emptied, a missing one is created
    (last in the enumeration). *)
Fixpoint create_or_truncate (name : string) (es : list (string * node))
    : list (string * node) :=
  match es with
  | [] => [(name, File (Lines []))]
  | (x, n) :: es' =>
      if String.eqb x name then
        match n with
        | File _ => (x, File (Lines [])) :: es'
        | Dir _ _ => (x, n) :: es'
        end
      else (x, n) :: create_or_truncate name es'
  end.

(** The node [n] once the file reached from it through the names [comps]
    has been opened for writing. *)
Fixpoint truncate_at (comps : list string) (n : node) {struct comps} : node :=
  match comps, n with
  | [name], Dir l (Some es) => Dir l (Some (create_or_truncate name es))
  | d :: rest, Dir l (Some es) =>
      Dir l (Some (map (fun p => if String.eqb (fst p) d && is_dir (snd p)
                                 then (fst p, truncate_at rest (snd p)) else p) es))
  | _, _ => n
  end.

(** [open(path, "w")] on a platform where a file has one name: the path of
    the root it lies under, a ["/"], and the names on the way joined by
    ["/"]. *)
Definition posix_open_w (path : string) (fs : filesystem) : filesystem :=
  fun root =>
    match fs root with
    | Some n =>
        if String.prefix (root ++ "/") path then
          Some (truncate_at
                  (split_slash
                     (String.substring (S (String.length root))
                        (String.length path - S (String.length root)) path))
                  n)
        else Some n
    | None => None
    end.

Definition file_of_lines (k : nat) : node := File (Lines (repeat "x" k)).

(** A tree that holds an earlier report. *)
Definition report_tree : node :=
  Dir false (Some [ ("a.js", file_of_lines 3); ("report.html", file_of_lines 6) ]).

Definition report_fs : filesystem :=
  fun p => if String.eqb p "src" then Some report_tree else None.

(** The tree of the specification's scenario, with a dependency cache, a
    repository directory, an unreadable file and a 600-line file added. *)
Definition sample_tree : node :=
  Dir false (Some
    [ ("a.ts", file_of_lines 501);
      ("node_modules", Dir false (Some [("huge.js", file_of_lines 900)]));
      ("b.js", file_of_lines 700);
      ("lib", Dir false (Some
         [ ("c.css", file_of_lines 701);
           ("f.mjs", file_of_lines 600);
           ("locked.html", File (Raises "[Errno 13] Permission denied"));
           (".git", Dir false (Some [("hook.js", file_of_lines 800)])) ]));
      ("d.py", file_of_lines 1000);
      ("e.tsx", file_of_lines 701) ]).

Definition sample_fs : filesystem :=
  fun p => if String.eqb p "src" then Some sample_tree else None.

(** ** Notions used to state the properties *)

(** The subdirectory called [d] among the entries [es]. *)
Definition subdir (d : string) (es : list (string * node)) : option node :=
  lookup d (filter (fun p => is_dir (snd p)) es).

(** What both loop bodies leave in [dirs]. *)
Definition pruned_dirs (dirs : list string) : list string :=
  let dirs := if py_in "node_modules" dirs then py_remove "node_modules" dirs else dirs in
  if py_in ".git" dirs then py_remove ".git" dirs else dirs.

(** What [os.walk] yields for one directory: its path and its
    non-directory entries. *)
Definition yielded : Type := string * list (string * readlines_result).

(** A loop body that prunes as the scripts do and only records what
    [os.walk] yields. *)
Definition trace_body (top : string) (dirs : list string)
    (files : list (string * readlines_result)) (log : list yielded)
    : list string * list yielded :=
  (pruned_dirs dirs, (log ++ [(top, files)])%list).

(** The suffixes both scripts test for, and the test. *)
Definition suffixes : list string :=
  [".js"; ".ts"; ".jsx"; ".tsx"; ".mjs"; ".cjs"; ".css"; ".html"].

Definition recognized (name : string) : bool := py_endswith_any name suffixes.

Definition error_text (filepath e : string) : string :=
  "Error reading " ++ filepath ++ ": " ++ e ++ nl.

Definition results_text : string := nl ++ "Results:" ++ nl.

Definition result_text (f : finding) : string :=
  let '(count, status, path) := f in
  "[" ++ status ++ "] " ++ py_str count ++ " lines: " ++ path ++ nl.

(** The defaults of both signatures and the roots of both [__main__]
    blocks. *)
Definition default_roots : list string := ["src"; "dram-engine/src"].
Definition default_warn_limit : Z := 500.
Definition default_fail_limit : Z := 700.
Definition default_output_file : string := "large_files_report.txt".

(** One file met by the scan: directory path, name, what reading it gives. *)
Definition meeting : Type := string * string * readlines_result.

(** *** What the traversal yields and what a run adds *)

Section Notions.
Variable path_join : string -> string -> string.
Variable str_list : list string -> string.

(** The first line of a report. *)
Definition header (roots : list string) (warn_limit fail_limit : Z) : string :=
  "Checking files in " ++ str_list roots ++ " (Warn: " ++ py_str warn_limit
    ++ ", Fail: " ++ py_str fail_limit ++ ")".

(** One step of the loop in which [os.walk] descends into the names left
    in [dirs]. *)
Definition descend {S : Type}
    (body : string -> list string -> list (string * readlines_result) -> S ->
            list string * S)
    (es : list (string * node)) (top : string) (st : S) (dirname : string) : S :=
  match subdir dirname es with
  | Some d => if islink d then st
              else walk path_join body d (path_join top dirname) st
  | None => st
  end.

(** The directories the scan visits under [n], in order. *)
Definition yields_of (n : node) (top : string) : list yielded :=
  walk path_join trace_body n top [].

Definition yields (fs : filesystem) (roots : list string) : list yielded :=
  flat_map (fun root_dir =>
              match fs root_dir with
              | Some n => yields_of n root_dir
              | None => []
              end) roots.

(** The files the scan meets, in order: directory path, name and what
    reading the file gives. *)
Definition visited (fs : filesystem) (roots : list string)
    : list (string * string * readlines_result) :=
  flat_map (fun y => map (fun e => (fst y, fst e, snd e)) (snd y))
           (yields fs roots).

(** What [os.walk] yields below the subdirectory [d] of a directory. *)
Definition yields_below (es : list (string * node)) (top d : string)
    : list yielded :=
  match subdir d es with
  | Some n => if islink n then [] else yields_of n (path_join top d)
  | None => []
  end.

(** What meeting one file adds to the sink. *)
Definition errors_at (v : meeting) : list string :=
  let '(top, name, opened) := v in
  match opened with
  | Raises e => if recognized name then [error_text (path_join top name) e] else []
  | Lines _ => []
  end.

(** What meeting one file adds to [large_files]. *)
Definition found_at (warn_limit fail_limit : Z) (v : meeting) : list finding :=
  let '(top, name, opened) := v in
  match opened with
  | Lines ls =>
      let lines := Z.of_nat (List.length ls) in
      if recognized name && (lines >? warn_limit) then
        [(lines, if lines >? fail_limit then "FAIL" else "WARN", path_join top name)]
      else []
  | Raises _ => []
  end.

(** [large_files] when the traversal ends, before the sort. *)
Definition recorded (fs : filesystem) (roots : list string)
    (warn_limit fail_limit : Z) : list finding :=
  flat_map (found_at warn_limit fail_limit) (visited fs roots).

(** Everything a run writes to its sink. *)
Definition report_of (fs : filesystem) (roots : list string)
    (warn_limit fail_limit : Z) : stream :=
  ((header roots warn_limit fail_limit ++ nl)%string
     :: flat_map errors_at (visited fs roots)
     ++ [results_text]
     ++ map result_text
          (py_sort_reverse count_of (recorded fs roots warn_limit fail_limit)))%list.

End Notions.

Definition by_decreasing {A : Type} (key : A -> Z) (x y : A) : Prop := key y <= key x.

(** *** Trees that differ where the scan does not look *)

Definition is_pruned_name (d : string) : bool :=
  String.eqb d "node_modules" || String.eqb d ".git".

Definition emptied (n : node) : node :=
  match n with
  | Dir l _ => Dir l (Some [])
  | File r => File r
  end.

(** The tree with every entry called [node_modules] or [.git] emptied, at
    every depth below the node itself. *)
Fixpoint empty_pruned (n : node) : node :=
  match n with
  | File r => File r
  | Dir l None => Dir l None
  | Dir l (Some es) =>
      Dir l (Some (map (fun p => (fst p,
                                  if is_pruned_name (fst p) then emptied (snd p)
                                  else empty_pruned (snd p))) es))
  end.

(** The tree without the files whose names have no recognized suffix. *)
Fixpoint only_recognized (n : node) : node :=
  match n with
  | File r => File r
  | Dir l None => Dir l None
  | Dir l (Some es) =>
      Dir l (Some (filter (fun q => is_dir (snd q) || recognized (fst q))
                          (map (fun p => (fst p, only_recognized (snd p))) es)))
  end.

Fixpoint distinct (l : list string) : bool :=
  match l with
  | [] => true
  | x :: l' => negb (py_in x l') && distinct l'
  end.

(** Within every directory the entries have different names, as on a file
    system. *)
Fixpoint names_distinct (n : node) : bool :=
  match n with
  | File _ => true
  | Dir _ None => true
  | Dir _ (Some es) =>
      distinct (map fst es) && forallb (fun p => names_distinct (snd p)) es
  end.

(** The entries of a directory of [only_recognized]. *)
Definition kept (es : list (string * node)) : list (string * node) :=
  filter (fun q => is_dir (snd q) || recognized (fst q))
         (map (fun p => (fst p, only_recognized (snd p))) es).

Definition recognized_files (y : yielded) : yielded :=
  (fst y, filter (fun e => recognized (fst e)) (snd y)).

(** *** Where a file lies and whether it counts *)

(** The directory reached from the node [n], known as [top], through the
    subdirectories named in [trail], none of them a symbolic link: its path
    as [os.walk] builds it and its entries.  [None] when a name of the trail
    is not a subdirectory, is a link, or a directory on the way cannot be
    listed. *)
Fixpoint dir_at (path_join : string -> string -> string) (n : node)
    (top : string) (trail : list string) {struct trail}
    : option (string * list (string * node)) :=
  match n with
  | Dir _ (Some es) =>
      match trail with
      | [] => Some (top, es)
      | d :: trail' =>
          match subdir d es with
          | Some m => if islink m then None
                      else dir_at path_join m (path_join top d) trail'
          | None => None
          end
      end
  | _ => None
  end.

(** A file with a recognized suffix that was read and has more than
    [warn_limit] lines. *)
Definition over_limit (warn_limit : Z) (v : meeting) : bool :=
  match v with
  | (_, name, Lines ls) => recognized name && (Z.of_nat (List.length ls) >? warn_limit)
  | (_, _, Raises _) => false
  end.


(** * Proofs *)

(** ** Induction on file trees *)

Section NodeInduction.
Variable P : node -> Prop.
Hypothesis P_file : forall r, P (File r).
Hypothesis P_unreadable : forall l, P (Dir l None).
Hypothesis P_dir :
  forall l es, Forall (fun p => P (snd p)) es -> P (Dir l (Some es)).

Fixpoint node_nested_ind (n : node) : P n :=
  match n with
  | File r => P_file r
  | Dir l None => P_unreadable l
  | Dir l (Some es) =>
      P_dir l es
        ((fix all (es : list (string * node)) : Forall (fun p => P (snd p)) es :=
            match es with
            | [] => Forall_nil _
            | p :: es' => Forall_cons p (node_nested_ind (snd p)) (all es')
            end) es)
  end.
End NodeInduction.

(** ** Built-ins *)

Lemma py_in_In (x : string) (l : list string) : py_in x l = true <-> In x l.
Proof.
  induction l as [|y l IH]; simpl.
  - split; [discriminate | tauto].
  - destruct (String.eqb_spec y x) as [->|Hne].
    + tauto.
    + rewrite IH. split; [tauto | intros [H|H]; [contradiction | exact H]].
Qed.

Lemma py_remove_In (x y : string) (l : list string) :
  In y (py_remove x l) -> In y l.
Proof.
  induction l as [|z l IH]; simpl; [tauto|].
  destruct (String.eqb z x); simpl; tauto.
Qed.

Lemma py_remove_NoDup (x : string) (l : list string) :
  NoDup l -> NoDup (py_remove x l) /\ ~ In x (py_remove x l).
Proof.
  induction 1 as [|z l Hz Hl IH]; simpl.
  - split; [constructor | tauto].
  - destruct (String.eqb_spec z x) as [->|Hne].
    + split; assumption.
    + destruct IH as [IH1 IH2]. split.
      * constructor; [|exact IH1]. intros H. apply Hz. eapply py_remove_In, H.
      * simpl. tauto.
Qed.

Lemma py_endswith_spec (s suf : string) :
  py_endswith s suf = true <-> exists pre, s = pre ++ suf.
Proof.
  induction s as [|c s IH].
  - destruct suf as [|a suf]; simpl.
    + split; [exists ""; reflexivity | reflexivity].
    + split; [discriminate|]. intros [pre H].
      destruct pre; simpl in H; discriminate H.
  - change (py_endswith (String c s) suf)
      with (if String.eqb (String c s) suf then true else py_endswith s suf).
    destruct (String.eqb_spec (String c s) suf) as [<-|Hne].
    + split; [exists ""; reflexivity | reflexivity].
    + rewrite IH. split.
      * intros [pre ->]. exists (String c pre). reflexivity.
      * intros [pre H]. destruct pre as [|c' pre]; simpl in H.
        -- congruence.
        -- injection H as Hc Hs. exists pre. exact Hs.
Qed.

Lemma py_endswith_any_spec (s : string) (sufs : list string) :
  py_endswith_any s sufs = true <->
  exists suf pre, In suf sufs /\ s = pre ++ suf.
Proof.
  unfold py_endswith_any. rewrite existsb_exists. split.
  - intros [suf [Hin H]]. apply py_endswith_spec in H. destruct H as [pre H].
    exists suf, pre. tauto.
  - intros [suf [pre [Hin H]]]. exists suf. split; [exact Hin|].
    apply py_endswith_spec. exists pre. exact H.
Qed.

(** ** The traversal *)

Section Traversal.
Variable path_join : string -> string -> string.

Lemma subdir_In (d : string) (es : list (string * node)) (n : node) :
  subdir d es = Some n -> In (d, n) es /\ is_dir n = true.
Proof.
  unfold subdir, lookup.
  destruct (find _ _) as [[d' n']|] eqn:E; simpl; [|discriminate].
  intros H. injection H as ->. apply find_some in E. destruct E as [E1 E2].
  simpl in E2. apply String.eqb_eq in E2. subst d'.
  apply filter_In in E1. exact E1.
Qed.

Lemma lookup_subdirs {B : Type} (f : node -> B) (d : string)
    (es : list (string * node)) :
  lookup d (filter (fun q => is_dir (fst (snd q)))
                   (map (fun p => (fst p, (snd p, f (snd p)))) es))
  = option_map (fun n => (n, f n)) (subdir d es).
Proof.
  unfold subdir, lookup. induction es as [|[name n] es IH]; simpl; [reflexivity|].
  destruct (is_dir n); simpl; [|exact IH].
  destruct (String.eqb name d); [reflexivity | exact IH].
Qed.

Section Body.
Context {S : Type}
  (body : string -> list string -> list (string * readlines_result) -> S ->
          list string * S).

Lemma walk_unfold (l : bool) (es : list (string * node)) (top : string) (st : S) :
  walk path_join body (Dir l (Some es)) top st
  = fold_left (descend path_join body es top)
      (fst (body top (dir_names es) (nondirs es) st))
      (snd (body top (dir_names es) (nondirs es) st)).
Proof.
  cbn [walk]. destruct (body top (dir_names es) (nondirs es) st) as [dirs st1].
  cbn [fst snd]. revert st1.
  induction dirs as [|d dirs IH]; intros st1; [reflexivity|].
  cbn [fold_left]. rewrite IH. f_equal.
  unfold descend. rewrite lookup_subdirs.
  destruct (subdir d es); reflexivity.
Qed.
End Body.

Lemma yields_log (n : node) :
  forall top log,
    walk path_join trace_body n top log = (log ++ yields_of path_join n top)%list.
Proof.
  induction n as [r|l|l es IH] using node_nested_ind; intros top log.
  - unfold yields_of. simpl. now rewrite app_nil_r.
  - unfold yields_of. simpl. now rewrite app_nil_r.
  - unfold yields_of. rewrite !walk_unfold. cbn [trace_body fst snd app].
    generalize (pruned_dirs (dir_names es)) as ds.
    generalize (top, nondirs es) as y. intros y ds.
    assert (G : forall ds (acc : list yielded),
               fold_left (descend path_join trace_body es top) ds acc
               = (acc ++ fold_left (descend path_join trace_body es top) ds [])%list).
    { clear ds. induction ds as [|d ds IHds]; intros acc; cbn [fold_left].
      - now rewrite app_nil_r.
      - rewrite IHds. rewrite (IHds (descend _ _ _ _ [] d)).
        rewrite app_assoc. f_equal.
        unfold descend. destruct (subdir d es) as [n'|] eqn:E;
          [|now rewrite app_nil_r].
        destruct (islink n'); [now rewrite app_nil_r|].
        apply subdir_In in E. destruct E as [E _].
        rewrite Forall_forall in IH. specialize (IH _ E). cbn [snd] in IH.
        rewrite IH. rewrite (IH _ []). reflexivity. }
    rewrite G. rewrite (G ds [y]). now rewrite app_assoc.
Qed.

(** A loop body that prunes as [trace_body] does and otherwise only
    updates its state sees exactly the yields. *)
Lemma walk_factor {S : Type}
    (body : string -> list string -> list (string * readlines_result) -> S ->
            list string * S)
    (step : S -> yielded -> S) :
  (forall top dirs files st,
      body top dirs files st = (pruned_dirs dirs, step st (top, files))) ->
  forall n top st,
    walk path_join body n top st = fold_left step (yields_of path_join n top) st.
Proof.
  intros Hbody.
  induction n as [r|l|l es IH] using node_nested_ind; intros top st;
    try reflexivity.
  unfold yields_of. rewrite !walk_unfold, Hbody. cbn [trace_body fst snd app].
  change (step st (top, nondirs es))
    with (fold_left step [(top, nondirs es)] st).
  generalize (pruned_dirs (dir_names es)) as ds.
  generalize [(top, nondirs es)] as log.
  intros log ds. revert log.
  induction ds as [|d ds IHds]; intros log; cbn [fold_left]; [reflexivity|].
  rewrite <- IHds. f_equal.
  unfold descend. destruct (subdir d es) as [n'|] eqn:E; [|reflexivity].
  destruct (islink n'); [reflexivity|].
  apply subdir_In in E. destruct E as [E _].
  rewrite Forall_forall in IH. specialize (IH _ E). cbn [snd] in IH.
  rewrite IH, yields_log, fold_left_app. reflexivity.
Qed.
End Traversal.

(** ** What one file adds to the sink and to [large_files] *)

Lemma string_app_assoc (a b c : string) : (a ++ b) ++ c = a ++ b ++ c.
Proof. induction a as [|x a IH]; simpl; [reflexivity | now rewrite IH]. Qed.

Section Scan.
Variable path_join : string -> string -> string.
Variables warn_limit fail_limit : Z.

(** A per-file step that adds [errors_at] to the sink and [found_at] to
    [large_files], run under [os.walk] with the scripts' pruning. *)
Variable file_step :
  string -> stream * list finding -> string * readlines_result ->
  stream * list finding.
Hypothesis file_step_adds :
  forall top out lf name opened,
    file_step top (out, lf) (name, opened)
    = ((out ++ errors_at path_join (top, name, opened))%list,
       (lf ++ found_at path_join warn_limit fail_limit (top, name, opened))%list).

Lemma files_add (top : string) (files : list (string * readlines_result)) :
  forall out lf,
    fold_left (file_step top) files (out, lf)
    = ((out ++ flat_map (errors_at path_join)
                 (map (fun e => (top, fst e, snd e)) files))%list,
       (lf ++ flat_map (found_at path_join warn_limit fail_limit)
                (map (fun e => (top, fst e, snd e)) files))%list).
Proof.
  induction files as [|[name opened] files IH]; intros out lf; cbn [fold_left map flat_map].
  - now rewrite !app_nil_r.
  - rewrite file_step_adds, IH. cbn [fst snd]. now rewrite !app_assoc.
Qed.

Lemma scan_adds (fs : filesystem) (roots : list string) (out : stream)
    (lf : list finding) :
  fold_left
    (fun st root_dir =>
       os_walk path_join
         (fun root dirs files st =>
            (pruned_dirs dirs, fold_left (file_step root) files st))
         fs root_dir st)
    roots (out, lf)
  = ((out ++ flat_map (errors_at path_join) (visited path_join fs roots))%list,
     (lf ++ flat_map (found_at path_join warn_limit fail_limit)
              (visited path_join fs roots))%list).
Proof.
  unfold visited, yields. revert out lf.
  induction roots as [|r roots IH]; intros out lf; cbn [fold_left flat_map].
  - now rewrite !app_nil_r.
  - unfold os_walk at 2. destruct (fs r) as [n|]; cbn [app]; [|apply IH].
    rewrite (walk_factor path_join _
               (fun st y => fold_left (file_step (fst y)) (snd y) st))
      by reflexivity.
    rewrite !flat_map_app.
    assert (G : forall ys out lf,
               fold_left (fun st (y : yielded) =>
                            fold_left (file_step (fst y)) (snd y) st) ys (out, lf)
               = ((out ++ flat_map (errors_at path_join)
                     (flat_map (fun y => map (fun e => (fst y, fst e, snd e)) (snd y)) ys))%list,
                  (lf ++ flat_map (found_at path_join warn_limit fail_limit)
                     (flat_map (fun y => map (fun e => (fst y, fst e, snd e)) (snd y)) ys))%list)).
    { induction ys as [|y ys IHys]; intros o l; cbn [fold_left flat_map].
      - now rewrite !app_nil_r.
      - rewrite files_add, IHys, !flat_map_app, !app_assoc. reflexivity. }
    rewrite G, IH, !app_assoc. reflexivity.
Qed.
End Scan.

(** ** The sort *)

Section SortFacts.
Context {A : Type} (key : A -> Z).

Lemma insert_desc_perm (x : A) (l : list A) :
  Permutation (x :: l) (insert_desc key x l).
Proof.
  induction l as [|y l IH]; simpl; [apply Permutation_refl|].
  destruct (key x <? key y); [|apply Permutation_refl].
  eapply perm_trans; [apply perm_swap|]. now apply perm_skip.
Qed.

Lemma py_sort_reverse_perm (l : list A) :
  Permutation l (py_sort_reverse key l).
Proof.
  induction l as [|x l IH]; simpl; [constructor|].
  eapply perm_trans; [apply perm_skip, IH | apply insert_desc_perm].
Qed.

Lemma insert_desc_sorted (x : A) (l : list A) :
  StronglySorted (by_decreasing key) l ->
  StronglySorted (by_decreasing key) (insert_desc key x l).
Proof.
  induction 1 as [|y l Hl IH Hy]; simpl.
  - repeat constructor.
  - destruct (Z.ltb_spec (key x) (key y)) as [Hlt|Hge].
    + constructor; [exact IH|].
      eapply Permutation_Forall; [apply insert_desc_perm|].
      constructor; [unfold by_decreasing; lia | exact Hy].
    + constructor; [now constructor|].
      constructor; [exact Hge|].
      eapply Forall_impl; [|exact Hy]. unfold by_decreasing. intros; lia.
Qed.

Lemma py_sort_reverse_sorted (l : list A) :
  StronglySorted (by_decreasing key) (py_sort_reverse key l).
Proof.
  induction l as [|x l IH]; simpl; [constructor | now apply insert_desc_sorted].
Qed.

Lemma insert_desc_filter (k : Z) (x : A) (l : list A) :
  filter (fun y => key y =? k) (insert_desc key x l)
  = filter (fun y => key y =? k) (x :: l).
Proof.
  induction l as [|y l IH]; [reflexivity|].
  cbn [insert_desc]. destruct (Z.ltb_spec (key x) (key y)) as [Hlt|Hge];
    [|reflexivity].
  cbn [filter] in *. rewrite IH.
  destruct (Z.eqb_spec (key x) k), (Z.eqb_spec (key y) k); try reflexivity; lia.
Qed.

Lemma py_sort_reverse_stable (k : Z) (l : list A) :
  filter (fun y => key y =? k) (py_sort_reverse key l)
  = filter (fun y => key y =? k) l.
Proof.
  induction l as [|x l IH]; [reflexivity|].
  cbn [py_sort_reverse fold_right]. rewrite insert_desc_filter.
  cbn [filter]. unfold py_sort_reverse in IH. now rewrite IH.
Qed.
End SortFacts.

(** ** The shape of a run *)

Section Runs.
Variable path_join : string -> string -> string.
Variable str_list : list string -> string.
Variable open_w : string -> filesystem -> filesystem.

Lemma console_file_adds (warn_limit fail_limit : Z) top out lf name opened :
  find_large_files.file_step path_join warn_limit fail_limit top (out, lf) (name, opened)
  = ((out ++ errors_at path_join (top, name, opened))%list,
     (lf ++ found_at path_join warn_limit fail_limit (top, name, opened))%list).
Proof.
  unfold find_large_files.file_step, errors_at, found_at, recognized, suffixes,
    print, error_text.
  destruct (py_endswith_any name _); cbn [negb andb].
  - destruct opened as [ls|e].
    + destruct (_ >? warn_limit); now rewrite ?app_nil_r.
    + rewrite !string_app_assoc, app_nil_r. reflexivity.
  - destruct opened; now rewrite !app_nil_r.
Qed.

Lemma report_file_adds (warn_limit fail_limit : Z) top out lf name opened :
  find_large_files_v2.file_step path_join warn_limit fail_limit top (out, lf) (name, opened)
  = ((out ++ errors_at path_join (top, name, opened))%list,
     (lf ++ found_at path_join warn_limit fail_limit (top, name, opened))%list).
Proof.
  unfold find_large_files_v2.file_step, errors_at, found_at, recognized, suffixes,
    write, error_text.
  destruct (py_endswith_any name _); cbn [negb andb].
  - destruct opened as [ls|e].
    + destruct (_ >? warn_limit); now rewrite ?app_nil_r.
    + rewrite app_nil_r. reflexivity.
  - destruct opened; now rewrite !app_nil_r.
Qed.

Lemma console_scan_adds fs roots warn_limit fail_limit out lf :
  find_large_files.scan path_join fs roots warn_limit fail_limit (out, lf)
  = ((out ++ flat_map (errors_at path_join) (visited path_join fs roots))%list,
     (lf ++ recorded path_join fs roots warn_limit fail_limit)%list).
Proof.
  apply (scan_adds path_join warn_limit fail_limit
           (find_large_files.file_step path_join warn_limit fail_limit)).
  intros. apply console_file_adds.
Qed.

Lemma report_scan_adds fs roots warn_limit fail_limit out lf :
  find_large_files_v2.scan path_join fs roots warn_limit fail_limit (out, lf)
  = ((out ++ flat_map (errors_at path_join) (visited path_join fs roots))%list,
     (lf ++ recorded path_join fs roots warn_limit fail_limit)%list).
Proof.
  apply (scan_adds path_join warn_limit fail_limit
           (find_large_files_v2.file_step path_join warn_limit fail_limit)).
  intros. apply report_file_adds.
Qed.

Lemma print_lines (l : list finding) (out : stream) :
  fold_left (fun so f => print (find_large_files.result_line f) so) l out
  = (out ++ map result_text l)%list.
Proof.
  revert out. induction l as [|[[c s] p] l IH]; intros out; cbn [fold_left map].
  - now rewrite app_nil_r.
  - rewrite IH. unfold print, find_large_files.result_line, result_text.
    rewrite <- app_assoc, !string_app_assoc. reflexivity.
Qed.

Lemma write_lines (l : list finding) (out : stream) :
  fold_left (fun o f => write (find_large_files_v2.result_line f) o) l out
  = (out ++ map result_text l)%list.
Proof.
  revert out. induction l as [|[[c s] p] l IH]; intros out; cbn [fold_left map].
  - now rewrite app_nil_r.
  - rewrite IH. unfold write, find_large_files_v2.result_line, result_text.
    now rewrite <- app_assoc.
Qed.

Lemma check_files_run fs roots warn_limit fail_limit stdout :
  find_large_files.check_files path_join str_list fs roots warn_limit fail_limit stdout
  = (py_sort_reverse count_of (recorded path_join fs roots warn_limit fail_limit),
     (stdout ++ report_of path_join str_list fs roots warn_limit fail_limit)%list).
Proof.
  unfold find_large_files.check_files. rewrite console_scan_adds. cbn [app].
  rewrite print_lines. unfold report_of, print, results_text, header.
  rewrite !string_app_assoc.
  f_equal. rewrite <- !app_assoc. reflexivity.
Qed.

Lemma check_files_v2_run fs roots warn_limit fail_limit output_file d :
  find_large_files_v2.check_files path_join str_list open_w fs roots
    warn_limit fail_limit output_file d
  = (py_sort_reverse count_of
       (recorded path_join (open_w output_file fs) roots warn_limit fail_limit),
     close output_file
       (report_of path_join str_list (open_w output_file fs) roots
          warn_limit fail_limit) d).
Proof.
  unfold find_large_files_v2.check_files. rewrite report_scan_adds. cbn [app].
  rewrite write_lines. unfold report_of, write, results_text, header.
  rewrite !string_app_assoc.
  f_equal. f_equal. cbn [app]. rewrite <- !app_assoc. reflexivity.
Qed.
End Runs.

(** ** Trees that differ where the scan does not look *)

Lemma distinct_NoDup (l : list string) : distinct l = true -> NoDup l.
Proof.
  induction l as [|x l IH]; simpl; intros H; [constructor|].
  apply andb_prop in H. destruct H as [H1 H2]. constructor; [|auto].
  rewrite <- py_in_In. now destruct (py_in x l).
Qed.

Lemma NoDup_map_filter {A B : Type} (f : A -> B) (g : A -> bool) (l : list A) :
  NoDup (map f l) -> NoDup (map f (filter g l)).
Proof.
  induction l as [|x l IH]; simpl; intros H; [constructor|].
  inversion H as [|? ? Hx Hl]; subst. destruct (g x); simpl; [|auto].
  constructor; [|auto]. intros Hin. apply Hx.
  apply in_map_iff in Hin. destruct Hin as [y [E Hy]].
  apply in_map_iff. exists y. split; [exact E|]. now apply filter_In in Hy.
Qed.

Lemma pruned_dirs_not_pruned (d : string) (dirs : list string) :
  NoDup dirs -> In d (pruned_dirs dirs) -> is_pruned_name d = false.
Proof.
  intros Hnd Hin. unfold pruned_dirs in Hin.
  set (dirs1 := if py_in "node_modules" dirs
                then py_remove "node_modules" dirs else dirs) in *.
  assert (H1 : NoDup dirs1 /\ ~ In "node_modules" dirs1).
  { subst dirs1. destruct (py_in "node_modules" dirs) eqn:E.
    - now apply py_remove_NoDup.
    - split; [exact Hnd|]. rewrite <- py_in_In, E. discriminate. }
  destruct H1 as [Hnd1 Hnm].
  assert (H2 : In d dirs1 /\ d <> ".git").
  { destruct (py_in ".git" dirs1) eqn:E.
    - split; [eapply py_remove_In, Hin|].
      intros ->. now apply (py_remove_NoDup ".git" dirs1 Hnd1).
    - split; [exact Hin|]. intros ->. apply py_in_In in Hin. congruence. }
  destruct H2 as [Hd Hgit]. unfold is_pruned_name.
  destruct (String.eqb_spec d "node_modules") as [->|_]; [contradiction|].
  destruct (String.eqb_spec d ".git") as [->|_]; [contradiction | reflexivity].
Qed.

Lemma flat_map_ext_in {A B : Type} (f g : A -> list B) (l : list A) :
  (forall x, In x l -> f x = g x) -> flat_map f l = flat_map g l.
Proof.
  induction l as [|x l IH]; intros H; simpl; [reflexivity|].
  rewrite H by now left. f_equal. apply IH. intros; apply H; now right.
Qed.

Section Surgery.
Variable path_join : string -> string -> string.

Lemma descend_log (es : list (string * node)) (top d : string)
    (log : list yielded) :
  descend path_join trace_body es top log d
  = (log ++ yields_below path_join es top d)%list.
Proof.
  unfold descend, yields_below.
  destruct (subdir d es) as [n|]; [|now rewrite app_nil_r].
  destruct (islink n); [now rewrite app_nil_r | apply yields_log].
Qed.

Lemma yields_of_dir (l : bool) (es : list (string * node)) (top : string) :
  yields_of path_join (Dir l (Some es)) top
  = (top, nondirs es)
      :: flat_map (yields_below path_join es top) (pruned_dirs (dir_names es)).
Proof.
  unfold yields_of. rewrite walk_unfold. cbn [trace_body fst snd app].
  change ((top, nondirs es) :: flat_map (yields_below path_join es top) (pruned_dirs (dir_names es)))
    with ([(top, nondirs es)] ++ flat_map (yields_below path_join es top) (pruned_dirs (dir_names es)))%list.
  generalize [(top, nondirs es)] as log.
  induction (pruned_dirs (dir_names es)) as [|d ds IH]; intros log.
  - simpl. now rewrite app_nil_r.
  - change (fold_left (descend path_join trace_body es top) ds
              (descend path_join trace_body es top log d)
            = (log ++ yields_below path_join es top d ++ flat_map (yields_below path_join es top) ds)%list).
    now rewrite IH, descend_log, app_assoc.
Qed.

Lemma subdir_map (f : string -> node -> node) (d : string)
    (es : list (string * node)) :
  (forall x n, is_dir (f x n) = is_dir n) ->
  subdir d (map (fun p => (fst p, f (fst p) (snd p))) es)
  = option_map (f d) (subdir d es).
Proof.
  intros Hf. unfold subdir, lookup.
  induction es as [|[x n] es IH]; simpl; [reflexivity|].
  rewrite Hf. destruct (is_dir n); simpl; [|exact IH].
  destruct (String.eqb_spec x d) as [->|_]; [reflexivity | exact IH].
Qed.

Lemma is_dir_empty_pruned (n : node) : is_dir (empty_pruned n) = is_dir n.
Proof. destruct n as [r|l [es|]]; reflexivity. Qed.

Lemma islink_empty_pruned (n : node) : islink (empty_pruned n) = islink n.
Proof. destruct n as [r|l [es|]]; reflexivity. Qed.

Lemma is_dir_emptied (n : node) : is_dir (emptied n) = is_dir n.
Proof. destruct n; reflexivity. Qed.

Lemma yields_of_empty_pruned (n : node) :
  names_distinct n = true ->
  forall top, yields_of path_join (empty_pruned n) top = yields_of path_join n top.
Proof.
  induction n as [r|l|l es IH] using node_nested_ind; intros Hwf top;
    try reflexivity.
  cbn [names_distinct] in Hwf. apply andb_prop in Hwf. destruct Hwf as [Hnd Hsub].
  cbn [empty_pruned]. rewrite !yields_of_dir.
  set (f := fun (x : string) (m : node) =>
              if is_pruned_name x then emptied m else empty_pruned m).
  change (map _ es) with (map (fun p => (fst p, f (fst p) (snd p))) es).
  assert (Hf : forall x m, is_dir (f x m) = is_dir m).
  { intros x m. unfold f. destruct (is_pruned_name x);
      [apply is_dir_emptied | apply is_dir_empty_pruned]. }
  assert (Hdirs : dir_names (map (fun p => (fst p, f (fst p) (snd p))) es)
                  = dir_names es).
  { unfold dir_names. clear -Hf. induction es as [|[d n] es IH]; simpl; [reflexivity|].
    rewrite Hf. destruct (is_dir n); simpl; now rewrite IH. }
  assert (Hfiles : nondirs (map (fun p => (fst p, f (fst p) (snd p))) es)
                   = nondirs es).
  { clear. induction es as [|[d n] es IH]; simpl; [reflexivity|].
    unfold f at 1. destruct n as [r|l' [es'|]]; destruct (is_pruned_name d);
      simpl; now rewrite IH. }
  rewrite Hdirs, Hfiles. f_equal.
  apply flat_map_ext_in. intros d Hd.
  assert (Hnp : is_pruned_name d = false).
  { eapply pruned_dirs_not_pruned; [|exact Hd].
    unfold dir_names. apply NoDup_map_filter. now apply distinct_NoDup. }
  unfold yields_below. rewrite (subdir_map f) by exact Hf.
  destruct (subdir d es) as [m|] eqn:E; [|reflexivity].
  cbn [option_map]. unfold f. rewrite Hnp, islink_empty_pruned.
  destruct (islink m); [reflexivity|].
  apply subdir_In in E. destruct E as [E _].
  rewrite Forall_forall in IH. apply (IH _ E).
  rewrite forallb_forall in Hsub. apply (Hsub _ E).
Qed.
End Surgery.

Lemma map_flat_map_comm {A B C : Type} (f : B -> C) (g : A -> list B) (l : list A) :
  map f (flat_map g l) = flat_map (fun x => map f (g x)) l.
Proof.
  induction l as [|x l IH]; simpl; [reflexivity|]. now rewrite map_app, IH.
Qed.

Section Unrecognized.
Variable path_join : string -> string -> string.

Lemma is_dir_only_recognized (n : node) : is_dir (only_recognized n) = is_dir n.
Proof. destruct n as [r|l [es|]]; reflexivity. Qed.

Lemma islink_only_recognized (n : node) : islink (only_recognized n) = islink n.
Proof. destruct n as [r|l [es|]]; reflexivity. Qed.

Lemma dir_names_kept es : dir_names (kept es) = dir_names es.
Proof.
  unfold dir_names, kept. induction es as [|[d n] es IH]; simpl; [reflexivity|].
  rewrite is_dir_only_recognized.
  destruct (is_dir n) eqn:E; simpl.
  - rewrite is_dir_only_recognized, E. simpl. now rewrite IH.
  - destruct (recognized d); simpl; [|exact IH].
    rewrite is_dir_only_recognized, E. exact IH.
Qed.

Lemma nondirs_kept es :
  nondirs (kept es) = filter (fun e => recognized (fst e)) (nondirs es).
Proof.
  unfold kept. induction es as [|[d n] es IH]; simpl; [reflexivity|].
  destruct n as [r|l [es'|]]; simpl; try exact IH.
  destruct (recognized d); simpl; now rewrite IH.
Qed.

Lemma subdir_kept d es :
  subdir d (kept es) = option_map only_recognized (subdir d es).
Proof.
  unfold subdir, lookup, kept. induction es as [|[x n] es IH]; simpl; [reflexivity|].
  rewrite is_dir_only_recognized.
  destruct (is_dir n) eqn:E; simpl.
  - rewrite is_dir_only_recognized, E. simpl.
    destruct (String.eqb x d); [reflexivity | exact IH].
  - destruct (recognized x); simpl; [|exact IH].
    rewrite is_dir_only_recognized, E. exact IH.
Qed.

Lemma yields_of_only_recognized (n : node) :
  forall top,
    yields_of path_join (only_recognized n) top
    = map recognized_files (yields_of path_join n top).
Proof.
  induction n as [r|l|l es IH] using node_nested_ind; intros top;
    try reflexivity.
  cbn [only_recognized]. fold (kept es).
  rewrite !yields_of_dir, dir_names_kept, nondirs_kept.
  cbn [map]. unfold recognized_files at 1. cbn [fst snd].
  rewrite map_flat_map_comm. apply (f_equal (cons _)).
  apply flat_map_ext_in. intros d _.
  unfold yields_below. rewrite subdir_kept.
  destruct (subdir d es) as [m|] eqn:E; [|reflexivity].
  cbn [option_map]. rewrite islink_only_recognized.
  destruct (islink m); [reflexivity|].
  apply subdir_In in E. destruct E as [E _].
  rewrite Forall_forall in IH. apply (IH _ E).
Qed.

Lemma flat_map_visited_recognized {X : Type} (h : meeting -> list X)
    (fs : filesystem) (roots : list string) :
  (forall top name opened, recognized name = false -> h (top, name, opened) = []) ->
  flat_map h (visited path_join (fun p => option_map only_recognized (fs p)) roots)
  = flat_map h (visited path_join fs roots).
Proof.
  intros Hh. unfold visited, yields. cbn beta.
  induction roots as [|r roots IH]; [reflexivity|].
  cbn [flat_map]. rewrite !flat_map_app.
  apply (f_equal2 (@app X)); [|exact IH].
  destruct (fs r) as [n|]; [|reflexivity]. cbn [option_map].
  rewrite yields_of_only_recognized.
  induction (yields_of path_join n r) as [|[top files] ys IHys]; [reflexivity|].
  cbn [map flat_map]. rewrite !flat_map_app, IHys. f_equal.
  unfold recognized_files. cbn [fst snd].
  induction files as [|[name opened] files IHf]; [reflexivity|].
  cbn [filter fst]. destruct (recognized name) eqn:E; cbn [map flat_map fst snd].
  - now rewrite IHf.
  - now rewrite Hh.
Qed.
End Unrecognized.

Section Membership.
Variable path_join : string -> string -> string.

Lemma In_recorded fs roots warn_limit fail_limit c s p :
  In (c, s, p) (recorded path_join fs roots warn_limit fail_limit) <->
  exists top name ls,
    In (top, name, Lines ls) (visited path_join fs roots)
    /\ recognized name = true
    /\ c = Z.of_nat (List.length ls)
    /\ warn_limit < c
    /\ s = (if c >? fail_limit then "FAIL" else "WARN")
    /\ p = path_join top name.
Proof.
  unfold recorded. rewrite in_flat_map. split.
  - intros [[[top name] [ls|e]] [Hv Hin]]; cbn [found_at] in Hin; [|contradiction].
    destruct (recognized name) eqn:Hr; cbn [andb] in Hin; [|contradiction].
    destruct (Z.gtb_spec (Z.of_nat (List.length ls)) warn_limit) as [Hgt|Hle];
      [|contradiction].
    destruct Hin as [Hin|[]]. injection Hin as <- <- <-.
    exists top, name, ls. repeat split; try assumption.
  - intros [top [name [ls [Hv [Hr [-> [Hgt [-> ->]]]]]]]].
    exists (top, name, Lines ls). split; [exact Hv|].
    cbn [found_at]. rewrite Hr. cbn [andb].
    destruct (Z.gtb_spec (Z.of_nat (List.length ls)) warn_limit) as [_|Hle];
      [now left | lia].
Qed.

Lemma In_errors fs roots top name e :
  In (top, name, Raises e) (visited path_join fs roots) ->
  recognized name = true ->
  In (error_text (path_join top name) e)
     (flat_map (errors_at path_join) (visited path_join fs roots)).
Proof.
  intros Hv Hr. apply in_flat_map. exists (top, name, Raises e).
  split; [exact Hv|]. cbn [errors_at]. rewrite Hr. now left.
Qed.

Lemma In_sorted_recorded fs roots warn_limit fail_limit (f : finding) :
  In f (py_sort_reverse count_of (recorded path_join fs roots warn_limit fail_limit))
  <-> In f (recorded path_join fs roots warn_limit fail_limit).
Proof.
  split; apply Permutation_in;
    [apply Permutation_sym|]; apply py_sort_reverse_perm.
Qed.
End Membership.

Lemma concat_empty_app (l1 l2 : list string) :
  String.concat "" (l1 ++ l2) = String.concat "" l1 ++ String.concat "" l2.
Proof.
  assert (C : forall x l, String.concat "" (x :: l) = x ++ String.concat "" l).
  { intros x [|y l]; simpl; [|reflexivity].
    clear. induction x as [|c x IH]; simpl; [reflexivity | now rewrite <- IH]. }
  induction l1 as [|x l1 IH]; [reflexivity|].
  change ((x :: l1) ++ l2)%list with (x :: (l1 ++ l2))%list.
  now rewrite !C, IH, string_app_assoc.
Qed.

(** ** Properties of the scan *)

Ltac flatten_apps :=
  rewrite <- ?app_assoc; cbn [app]; rewrite <- ?app_assoc; cbn [app].

Section Claims.
Variable path_join : string -> string -> string.
Variable str_list : list string -> string.
Variable open_w : string -> filesystem -> filesystem.

(** A run and the tree its scan reads: the console variant reads the tree
    it is given, the file variant the tree as opening the report file left
    it. *)
Lemma findings_of_either fs roots warn_limit fail_limit stdout output_file d seen lf :
  (seen = fs
   /\ lf = fst (find_large_files.check_files path_join str_list fs roots
                  warn_limit fail_limit stdout))
  \/ (seen = open_w output_file fs
      /\ lf = fst (find_large_files_v2.check_files path_join str_list open_w fs roots
                     warn_limit fail_limit output_file d)) ->
  lf = py_sort_reverse count_of (recorded path_join seen roots warn_limit fail_limit).
Proof.
  rewrite check_files_run, check_files_v2_run. cbn [fst].
  intros [[-> ->]|[-> ->]]; reflexivity.
Qed.

Lemma In_findings fs roots warn_limit fail_limit c s p :
  In (c, s, p)
     (py_sort_reverse count_of (recorded path_join fs roots warn_limit fail_limit))
  <->
  exists top name ls,
    In (top, name, Lines ls) (visited path_join fs roots)
    /\ recognized name = true
    /\ c = Z.of_nat (List.length ls)
    /\ warn_limit < c
    /\ s = (if c >? fail_limit then "FAIL" else "WARN")
    /\ p = path_join top name.
Proof. rewrite In_sorted_recorded. apply In_recorded. Qed.

Lemma yields_agree fs fs' roots :
  (forall r, In r roots -> fs' r = fs r) ->
  yields path_join fs' roots = yields path_join fs roots.
Proof.
  intros H. unfold yields. apply flat_map_ext_in. intros r Hr. now rewrite H.
Qed.

(** C1.  A file that the scan reads has a Finding exactly when its line
    count is strictly above [warn_limit]; the Finding says FAIL when the
    count is also strictly above [fail_limit] and WARN otherwise; and every
    Finding comes from such a file.  Both variants, each on the tree its
    scan reads ([seen]). *)
Theorem finding_iff_over_warn_limit
    fs roots warn_limit fail_limit stdout output_file d seen lf top name ls :
  (seen = fs
   /\ lf = fst (find_large_files.check_files path_join str_list fs roots
                  warn_limit fail_limit stdout))
  \/ (seen = open_w output_file fs
      /\ lf = fst (find_large_files_v2.check_files path_join str_list open_w fs roots
                     warn_limit fail_limit output_file d)) ->
  In (top, name, Lines ls) (visited path_join seen roots) ->
  recognized name = true ->
  let lines := Z.of_nat (List.length ls) in
  ((exists status, In (lines, status, path_join top name) lf) <-> warn_limit < lines)
  /\ (warn_limit < lines ->
      In (lines, if lines >? fail_limit then "FAIL" else "WARN", path_join top name) lf)
  /\ (forall c status p,
        In (c, status, p) lf ->
        warn_limit < c
        /\ (status = "FAIL" <-> fail_limit < c)
        /\ (status = "WARN" <-> c <= fail_limit)
        /\ exists top' name' ls',
             In (top', name', Lines ls') (visited path_join seen roots)
             /\ recognized name' = true
             /\ c = Z.of_nat (List.length ls')
             /\ p = path_join top' name').
Proof.
  intros Hlf Hv Hr lines. apply findings_of_either in Hlf. subst lf.
  assert (Hin : warn_limit < lines ->
                In (lines, if lines >? fail_limit then "FAIL" else "WARN",
                    path_join top name)
                   (py_sort_reverse count_of
                      (recorded path_join seen roots warn_limit fail_limit))).
  { intros Hgt. apply In_findings. exists top, name, ls. repeat split; assumption. }
  split; [|split]; [split | exact Hin |].
  - intros [status H]. apply In_findings in H.
    destruct H as [? [? [? [_ [_ [_ [H _]]]]]]]. exact H.
  - intros Hgt. eexists. apply Hin, Hgt.
  - intros c status p H. apply In_findings in H.
    destruct H as [top' [name' [ls' [Hv' [Hr' [Hc [Hgt [Hs Hp]]]]]]]].
    split; [exact Hgt|].
    repeat split.
    + intros ->. destruct (Z.gtb_spec c fail_limit); [assumption | discriminate].
    + intros H. subst status. destruct (Z.gtb_spec c fail_limit); [reflexivity | lia].
    + intros ->. destruct (Z.gtb_spec c fail_limit); [discriminate | assumption].
    + intros H. subst status. destruct (Z.gtb_spec c fail_limit); [lia | reflexivity].
    + exists top', name', ls'. repeat split; assumption.
Qed.

(** C2.  A file with exactly [fail_limit] lines (above [warn_limit]) gets
    a WARN Finding and no FAIL one; any Finding whose count equals
    [fail_limit] is WARN, and a FAIL Finding has a count strictly above
    [fail_limit].  Both variants, each on the tree its scan reads. *)
Theorem count_equal_to_fail_limit_is_warn
    fs roots warn_limit fail_limit stdout output_file d seen lf top name ls :
  (seen = fs
   /\ lf = fst (find_large_files.check_files path_join str_list fs roots
                  warn_limit fail_limit stdout))
  \/ (seen = open_w output_file fs
      /\ lf = fst (find_large_files_v2.check_files path_join str_list open_w fs roots
                     warn_limit fail_limit output_file d)) ->
  In (top, name, Lines ls) (visited path_join seen roots) ->
  recognized name = true ->
  Z.of_nat (List.length ls) = fail_limit ->
  warn_limit < fail_limit ->
  In (fail_limit, "WARN", path_join top name) lf
  /\ (forall status p, In (fail_limit, status, p) lf -> status = "WARN")
  /\ (forall c p, In (c, "FAIL", p) lf -> fail_limit < c).
Proof.
  intros Hlf Hv Hr Hlen Hlt. apply findings_of_either in Hlf. subst lf.
  split; [|split].
  - apply In_findings. exists top, name, ls.
    repeat split; try assumption; try congruence.
    now rewrite Z.gtb_ltb, Z.ltb_irrefl.
  - intros status p H. apply In_findings in H.
    destruct H as [? [? [? [_ [_ [_ [_ [H _]]]]]]]].
    now rewrite Z.gtb_ltb, Z.ltb_irrefl in H.
  - intros c p H. apply In_findings in H.
    destruct H as [? [? [? [_ [_ [_ [_ [H _]]]]]]]].
    destruct (Z.gtb_spec c fail_limit); [assumption | discriminate].
Qed.

Lemma console_line_nl (f : finding) :
  find_large_files.result_line f ++ nl = result_text f.
Proof.
  destruct f as [[c s] p]. unfold find_large_files.result_line, result_text.
  now rewrite !string_app_assoc.
Qed.

Lemma close_same output_file out d :
  close output_file out d output_file = Some (String.concat "" out).
Proof. unfold close. now rewrite String.eqb_refl. Qed.

(** C3.  The final [large_files] is in non-increasing order of the line
    count (the first component of a Finding), it is a rearrangement of the
    list the traversal recorded, Findings with the same count keep the order
    in which the traversal recorded them, and the report ends with the text
    [[STATUS] count lines: path] of each Finding, one per line, in that
    order.  Both variants. *)
Theorem report_sorted_by_decreasing_count_stable
    fs roots warn_limit fail_limit stdout output_file d out out2 :
  let run := find_large_files.check_files path_join str_list fs roots
               warn_limit fail_limit stdout in
  let run2 := find_large_files_v2.check_files path_join str_list open_w fs roots
                warn_limit fail_limit output_file d in
  let scanned := snd (find_large_files.scan path_join fs roots warn_limit fail_limit
                        (out, [])) in
  let scanned2 := snd (find_large_files_v2.scan path_join (open_w output_file fs) roots
                         warn_limit fail_limit (out2, [])) in
  (StronglySorted (fun a b : finding => fst (fst b) <= fst (fst a)) (fst run)
   /\ Permutation scanned (fst run)
   /\ (forall k, filter (fun x : finding => fst (fst x) =? k) (fst run)
                 = filter (fun x : finding => fst (fst x) =? k) scanned)
   /\ exists before,
       snd run = (before ++ map result_text (fst run))%list)
  /\ (StronglySorted (fun a b : finding => fst (fst b) <= fst (fst a)) (fst run2)
      /\ Permutation scanned2 (fst run2)
      /\ (forall k, filter (fun x : finding => fst (fst x) =? k) (fst run2)
                    = filter (fun x : finding => fst (fst x) =? k) scanned2)
      /\ exists before,
          snd run2 output_file
          = Some (before ++ String.concat "" (map result_text (fst run2)))).
Proof.
  intros run run2 scanned scanned2. subst run run2 scanned scanned2.
  rewrite check_files_run, check_files_v2_run, console_scan_adds, report_scan_adds.
  cbn [fst snd app].
  split; (split; [apply (py_sort_reverse_sorted count_of)|]);
    (split; [apply py_sort_reverse_perm|]);
    (split; [intros k; apply (py_sort_reverse_stable count_of)|]).
  - exists (stdout ++ (header str_list roots warn_limit fail_limit ++ nl)%string
              :: flat_map (errors_at path_join) (visited path_join fs roots)
              ++ [results_text])%list.
    unfold report_of. now flatten_apps.
  - rewrite close_same. unfold report_of.
    exists (String.concat ""
              ((header str_list roots warn_limit fail_limit ++ nl)%string
                 :: flat_map (errors_at path_join)
                      (visited path_join (open_w output_file fs) roots)
                 ++ [results_text])%list).
    rewrite <- concat_empty_app. now flatten_apps.
Qed.

(** The file variant opens its report file before it scans, so it computes
    what the console variant computes on the tree as that opening left it. *)
Lemma file_variant_is_console_on_opened_tree
    fs roots warn_limit fail_limit stdout output_file d :
  find_large_files_v2.check_files path_join str_list open_w fs roots
    warn_limit fail_limit output_file d
  = (fst (find_large_files.check_files path_join str_list (open_w output_file fs)
            roots warn_limit fail_limit stdout),
     close output_file
       (skipn (List.length stdout)
          (snd (find_large_files.check_files path_join str_list
                  (open_w output_file fs) roots warn_limit fail_limit stdout))) d).
Proof.
  rewrite check_files_run, check_files_v2_run. cbn [fst snd].
  rewrite skipn_app, skipn_all, Nat.sub_diag. reflexivity.
Qed.


(** C5.  When reading a file with a recognized suffix raises, the message
    goes to the variant's sink, [large_files] is left as it was, the run
    goes on to the Results section, every readable file above the limit
    still has its Finding, and every Finding comes from a file that was
    read.  Both variants, each on the tree its scan reads. *)
Theorem read_error_is_reported_and_skipped
    fs roots warn_limit fail_limit stdout output_file d top name msg :
  recognized name = true ->
  let run := find_large_files.check_files path_join str_list fs roots
               warn_limit fail_limit stdout in
  let run2 := find_large_files_v2.check_files path_join str_list open_w fs roots
                warn_limit fail_limit output_file d in
  let seen2 := open_w output_file fs in
  (In (top, name, Raises msg) (visited path_join fs roots) ->
   exists before after,
     snd run = (stdout ++ before
                  ++ [("Error reading " ++ path_join top name ++ ": " ++ msg ++ nl)%string]
                  ++ after)%list
     /\ In results_text after)
  /\ (In (top, name, Raises msg) (visited path_join seen2 roots) ->
      exists before between after,
        snd run2 output_file
        = Some (before ++ ("Error reading " ++ path_join top name ++ ": " ++ msg ++ nl)
                  ++ between ++ results_text ++ after))
  /\ (forall out lf,
         find_large_files.file_step path_join warn_limit fail_limit top (out, lf)
           (name, Raises msg)
         = (print ("Error reading " ++ path_join top name ++ ": " ++ msg) out, lf)
         /\ find_large_files_v2.file_step path_join warn_limit fail_limit top (out, lf)
              (name, Raises msg)
            = (write ("Error reading " ++ path_join top name ++ ": " ++ msg ++ nl) out, lf))
  /\ (forall top' name' ls,
         recognized name' = true ->
         warn_limit < Z.of_nat (List.length ls) ->
         (In (top', name', Lines ls) (visited path_join fs roots) ->
          exists status,
            In (Z.of_nat (List.length ls), status, path_join top' name') (fst run))
         /\ (In (top', name', Lines ls) (visited path_join seen2 roots) ->
             exists status,
               In (Z.of_nat (List.length ls), status, path_join top' name') (fst run2)))
  /\ (forall c status p,
         (In (c, status, p) (fst run) ->
          exists top' name' ls,
            In (top', name', Lines ls) (visited path_join fs roots)
            /\ recognized name' = true
            /\ c = Z.of_nat (List.length ls)
            /\ p = path_join top' name')
         /\ (In (c, status, p) (fst run2) ->
             exists top' name' ls,
               In (top', name', Lines ls) (visited path_join seen2 roots)
               /\ recognized name' = true
               /\ c = Z.of_nat (List.length ls)
               /\ p = path_join top' name')).
Proof.
  intros Hr run run2 seen2. subst run run2 seen2.
  rewrite check_files_run, check_files_v2_run. cbn [fst snd]. rewrite close_same.
  fold (error_text (path_join top name) msg).
  split; [|split; [|split; [|split]]].
  - intros Hv.
    pose proof (In_errors path_join fs roots top name msg Hv Hr) as Hin.
    apply in_split in Hin. destruct Hin as [e1 [e2 He]].
    unfold report_of. rewrite He.
    exists ((header str_list roots warn_limit fail_limit ++ nl)%string :: e1),
      (e2 ++ [results_text]
          ++ map result_text
               (py_sort_reverse count_of
                  (recorded path_join fs roots warn_limit fail_limit)))%list.
    split; [now flatten_apps|].
    apply in_or_app. right. now left.
  - intros Hv.
    pose proof (In_errors path_join (open_w output_file fs) roots top name msg Hv Hr)
      as Hin.
    apply in_split in Hin. destruct Hin as [e1 [e2 He]].
    unfold report_of. rewrite He.
    exists (String.concat "" ((header str_list roots warn_limit fail_limit ++ nl)%string :: e1)),
      (String.concat "" e2),
      (String.concat ""
         (map result_text
            (py_sort_reverse count_of
               (recorded path_join (open_w output_file fs) roots
                  warn_limit fail_limit)))).
    f_equal.
    set (h := (header str_list roots warn_limit fail_limit ++ nl)%string).
    set (l := map result_text _).
    replace (h :: (e1 ++ error_text (path_join top name) msg :: e2)
               ++ [results_text] ++ l)%list
      with ((h :: e1) ++ [error_text (path_join top name) msg] ++ e2
              ++ [results_text] ++ l)%list by now flatten_apps.
    now rewrite !concat_empty_app.
  - intros out lf. unfold find_large_files.file_step, find_large_files_v2.file_step.
    unfold recognized, suffixes in Hr. rewrite Hr. split; reflexivity.
  - intros top' name' ls Hr' Hgt. split; intros Hv'; eexists;
      apply In_findings; exists top', name', ls; repeat split; assumption.
  - intros c status p. split; intros H; apply In_findings in H;
      destruct H as [top' [name' [ls [Hv' [Hr' [Hc [_ [_ Hp]]]]]]]];
      exists top', name', ls; repeat split; assumption.
Qed.

Lemma yields_empty_pruned fs roots :
  (forall r n, In r roots -> fs r = Some n -> names_distinct n = true) ->
  yields path_join (fun p => option_map empty_pruned (fs p)) roots
  = yields path_join fs roots.
Proof.
  intros Hwf. unfold yields. apply flat_map_ext_in. intros r Hr.
  destruct (fs r) as [n|] eqn:E; [|reflexivity]. cbn [option_map].
  apply yields_of_empty_pruned. now apply (Hwf r).
Qed.

(** C6.  Whatever lies below a subdirectory called [node_modules] or
    [.git], at any depth under a root, has no effect on a run: with every
    such subdirectory emptied in the tree that the scan reads ([seen]),
    [os.walk] yields the same, the console variant on that tree ends with
    the same [large_files] and standard output, and so does the file
    variant when it is the tree that opening the report file leaves.
    Directory entries have different names, as on a file system. *)
Theorem pruned_directories_contribute_nothing
    fs roots warn_limit fail_limit stdout output_file d seen :
  (forall r n, In r roots -> seen r = Some n -> names_distinct n = true) ->
  let emptied : filesystem := fun p => option_map empty_pruned (seen p) in
  yields path_join emptied roots = yields path_join seen roots
  /\ find_large_files.check_files path_join str_list emptied roots
       warn_limit fail_limit stdout
     = find_large_files.check_files path_join str_list seen roots
         warn_limit fail_limit stdout
  /\ (seen = open_w output_file fs ->
      find_large_files_v2.check_files path_join str_list
        (fun path t p => option_map empty_pruned (open_w path t p)) fs roots
        warn_limit fail_limit output_file d
      = find_large_files_v2.check_files path_join str_list open_w fs roots
          warn_limit fail_limit output_file d).
Proof.
  intros Hwf emptied. subst emptied.
  pose proof (yields_empty_pruned seen roots Hwf) as Hy.
  split; [exact Hy|].
  rewrite !check_files_run, !check_files_v2_run.
  unfold report_of, recorded, visited. rewrite Hy. split; [reflexivity|].
  intros ->. rewrite Hy. reflexivity.
Qed.

Lemma errors_at_unrecognized top name opened :
  recognized name = false -> errors_at path_join (top, name, opened) = [].
Proof. intros H. cbn [errors_at]. rewrite H. now destruct opened. Qed.

Lemma found_at_unrecognized warn_limit fail_limit top name opened :
  recognized name = false ->
  found_at path_join warn_limit fail_limit (top, name, opened) = [].
Proof. intros H. cbn [found_at]. rewrite H. now destruct opened. Qed.

(** C7.  A file whose name ends with none of the recognized suffixes
    fails the scripts' suffix test, its loop iteration changes neither
    [large_files] nor the sink, and a run on the tree without any such
    file gives the same [large_files] and the same report.  Both variants,
    each on the tree its scan reads. *)
Theorem unrecognized_suffix_contributes_nothing (name : string) :
  (forall suf pre, In suf suffixes -> name <> pre ++ suf) ->
  py_endswith_any name suffixes = false
  /\ (forall warn_limit fail_limit top opened st,
         find_large_files.file_step path_join warn_limit fail_limit top st (name, opened)
         = st
         /\ find_large_files_v2.file_step path_join warn_limit fail_limit top st
              (name, opened)
            = st)
  /\ (forall fs roots warn_limit fail_limit stdout output_file d,
         let stripped : filesystem := fun p => option_map only_recognized (fs p) in
         find_large_files.check_files path_join str_list stripped roots
           warn_limit fail_limit stdout
         = find_large_files.check_files path_join str_list fs roots
             warn_limit fail_limit stdout
         /\ find_large_files_v2.check_files path_join str_list
              (fun path t p => option_map only_recognized (open_w path t p)) fs roots
              warn_limit fail_limit output_file d
            = find_large_files_v2.check_files path_join str_list open_w fs roots
                warn_limit fail_limit output_file d).
Proof.
  intros Hname.
  assert (Hr : py_endswith_any name suffixes = false).
  { destruct (py_endswith_any name suffixes) eqn:E; [|reflexivity].
    apply py_endswith_any_spec in E. destruct E as [suf [pre [Hin E]]].
    now destruct (Hname suf pre Hin). }
  split; [exact Hr|]. split.
  - intros warn_limit fail_limit top opened [out lf].
    unfold find_large_files.file_step, find_large_files_v2.file_step.
    unfold suffixes in Hr. rewrite Hr. split; reflexivity.
  - intros fs roots warn_limit fail_limit stdout output_file d stripped.
    subst stripped. split.
    + rewrite !check_files_run. unfold report_of, recorded.
      rewrite (flat_map_visited_recognized path_join (errors_at path_join))
        by (intros; now apply errors_at_unrecognized).
      rewrite (flat_map_visited_recognized path_join
                 (found_at path_join warn_limit fail_limit))
        by (intros; now apply found_at_unrecognized).
      reflexivity.
    + rewrite !check_files_v2_run. unfold report_of, recorded.
      rewrite (flat_map_visited_recognized path_join (errors_at path_join))
        by (intros; now apply errors_at_unrecognized).
      rewrite (flat_map_visited_recognized path_join
                 (found_at path_join warn_limit fail_limit))
        by (intros; now apply found_at_unrecognized).
      reflexivity.
Qed.



(** C9.  The report of a run depends on the tree and the arguments only:
    the console variant appends the same texts whatever standard output
    held before, so a second run appends the first run's texts again; the
    file variant leaves the same report file whatever the disk held
    before, so a second run leaves the disk as the first did, also when it
    starts from another tree that is the same once the report file has been
    opened again. *)
Theorem rerun_gives_the_same_report fs roots warn_limit fail_limit :
  (exists report,
      (forall stdout,
          snd (find_large_files.check_files path_join str_list fs roots
                 warn_limit fail_limit stdout)
          = (stdout ++ report)%list)
      /\ (forall stdout,
             snd (find_large_files.check_files path_join str_list fs roots
                    warn_limit fail_limit
                    (snd (find_large_files.check_files path_join str_list fs roots
                            warn_limit fail_limit stdout)))
             = ((stdout ++ report) ++ report)%list))
  /\ (forall output_file,
         exists report,
           (forall d,
               snd (find_large_files_v2.check_files path_join str_list open_w fs roots
                      warn_limit fail_limit output_file d) output_file
               = Some (String.concat "" report))
           /\ (forall d p,
                  snd (find_large_files_v2.check_files path_join str_list open_w fs roots
                         warn_limit fail_limit output_file
                         (snd (find_large_files_v2.check_files path_join str_list open_w
                                 fs roots warn_limit fail_limit output_file d))) p
                  = snd (find_large_files_v2.check_files path_join str_list open_w fs roots
                           warn_limit fail_limit output_file d) p)
           /\ (forall fs' d p,
                  (forall r, In r roots ->
                             open_w output_file fs' r = open_w output_file fs r) ->
                  snd (find_large_files_v2.check_files path_join str_list open_w fs' roots
                         warn_limit fail_limit output_file
                         (snd (find_large_files_v2.check_files path_join str_list open_w
                                 fs roots warn_limit fail_limit output_file d))) p
                  = snd (find_large_files_v2.check_files path_join str_list open_w fs roots
                           warn_limit fail_limit output_file d) p))
  /\ (forall stdout stdout' output_file d d',
         fst (find_large_files.check_files path_join str_list fs roots
                warn_limit fail_limit stdout)
         = fst (find_large_files.check_files path_join str_list fs roots
                  warn_limit fail_limit stdout')
         /\ fst (find_large_files_v2.check_files path_join str_list open_w fs roots
                   warn_limit fail_limit output_file d)
            = fst (find_large_files_v2.check_files path_join str_list open_w fs roots
                     warn_limit fail_limit output_file d')).
Proof.
  split; [|split].
  - exists (report_of path_join str_list fs roots warn_limit fail_limit).
    split.
    + intros stdout. now rewrite check_files_run.
    + intros stdout. now rewrite !check_files_run.
  - intros output_file.
    exists (report_of path_join str_list (open_w output_file fs) roots
              warn_limit fail_limit).
    split; [|split].
    + intros d. rewrite check_files_v2_run. apply close_same.
    + intros d p. rewrite !check_files_v2_run. cbn [snd].
      unfold close. now destruct (String.eqb p output_file).
    + intros fs' d p Hsame. rewrite !check_files_v2_run. cbn [snd].
      unfold report_of, recorded, visited.
      rewrite (yields_agree _ _ roots Hsame).
      unfold close. now destruct (String.eqb p output_file).
  - intros. now rewrite !check_files_run, !check_files_v2_run.
Qed.

(** C10.  The two limits are used as given, in any order.  When
    [fail_limit] is below [warn_limit], a file whose line count is above
    [fail_limit] but not above [warn_limit] leaves [large_files] as it
    was, no Finding has such a count, and a FAIL Finding has a count above
    both limits.  Both variants. *)
Theorem count_between_fail_and_warn_limit_has_no_finding
    fs roots warn_limit fail_limit stdout output_file d lf n :
  fail_limit < warn_limit ->
  fail_limit < n <= warn_limit ->
  lf = fst (find_large_files.check_files path_join str_list fs roots
              warn_limit fail_limit stdout)
  \/ lf = fst (find_large_files_v2.check_files path_join str_list open_w fs roots
                 warn_limit fail_limit output_file d) ->
  (forall status p, ~ In (n, status, p) lf)
  /\ (forall top name ls st,
         Z.of_nat (List.length ls) = n ->
         find_large_files.file_step path_join warn_limit fail_limit top st
           (name, Lines ls) = st
         /\ find_large_files_v2.file_step path_join warn_limit fail_limit top st
              (name, Lines ls) = st)
  /\ (forall c p, In (c, "FAIL", p) lf -> warn_limit < c /\ fail_limit < c).
Proof.
  intros Hlim Hn Hlf.
  assert (E : exists seen,
             lf = py_sort_reverse count_of
                    (recorded path_join seen roots warn_limit fail_limit)).
  { destruct Hlf as [->| ->]; rewrite ?check_files_run, ?check_files_v2_run;
      eexists; reflexivity. }
  destruct E as [seen ->].
  split; [|split].
  - intros status p H. apply In_findings in H.
    destruct H as [? [? [? [_ [_ [_ [H _]]]]]]]. lia.
  - intros top name ls [out lf] Hlen.
    unfold find_large_files.file_step, find_large_files_v2.file_step.
    rewrite Hlen.
    destruct (Z.gtb_spec n warn_limit) as [Hgt|_]; [lia|].
    destruct (negb _); split; reflexivity.
  - intros c p H. apply In_findings in H.
    destruct H as [? [? [? [_ [_ [_ [Hgt [Hs _]]]]]]]].
    split; [exact Hgt|].
    destruct (Z.gtb_spec c fail_limit); [assumption | discriminate].
Qed.
End Claims.

(** ** Further properties of the scan *)

Lemma In_nondirs (name : string) (r : readlines_result) (es : list (string * node)) :
  In (name, r) (nondirs es) <-> In (name, File r) es.
Proof.
  induction es as [|[x [r'|l sc]] es IH]; simpl; [tauto| |].
  - rewrite IH. split; (intros [H|H]; [left; congruence | now right]).
  - rewrite IH. split; [now right | intros [H|H]; [discriminate | exact H]].
Qed.

Lemma py_remove_keeps (x y : string) (l : list string) :
  In y l -> y <> x -> In y (py_remove x l).
Proof.
  induction l as [|z l IH]; simpl; [tauto|]. intros [->|H] Hne.
  - destruct (String.eqb_spec y x); [contradiction | now left].
  - destruct (String.eqb z x); [exact H | right; now apply IH].
Qed.

Lemma pruned_dirs_keeps (d : string) (dirs : list string) :
  In d dirs -> is_pruned_name d = false -> In d (pruned_dirs dirs).
Proof.
  intros Hin Hnp. unfold is_pruned_name in Hnp. apply orb_false_elim in Hnp.
  destruct Hnp as [H1 H2]. apply String.eqb_neq in H1, H2.
  unfold pruned_dirs.
  assert (H : In d (if py_in "node_modules" dirs
                    then py_remove "node_modules" dirs else dirs))
    by (destruct (py_in "node_modules" dirs); [now apply py_remove_keeps | exact Hin]).
  destruct (py_in ".git" _); [now apply py_remove_keeps | exact H].
Qed.

Lemma subdir_dir_names (d : string) (es : list (string * node)) (m : node) :
  subdir d es = Some m -> In d (dir_names es).
Proof.
  intros H. apply subdir_In in H. destruct H as [H1 H2].
  unfold dir_names. apply in_map_iff. exists (d, m). split; [reflexivity|].
  apply filter_In. now split.
Qed.


Lemma flat_map_singletons {A B : Type} (p : A -> bool) (g : A -> B) (l : list A) :
  flat_map (fun x => if p x then [g x] else []) l = map g (filter p l).
Proof.
  induction l as [|x l IH]; simpl; [reflexivity|].
  destruct (p x); simpl; now rewrite IH.
Qed.

Section SortMore.
Context {A : Type} (key : A -> Z).




End SortMore.

Section Reach.
Variable path_join : string -> string -> string.

Lemma dir_at_top (trail : list string) :
  forall n top top' es,
    dir_at path_join n top trail = Some (top', es) ->
    top' = fold_left path_join trail top.
Proof.
  induction trail as [|d trail IH]; intros n top top' es H;
    destruct n as [r|l [es0|]]; simpl in H; try discriminate H.
  - now injection H as <- _.
  - destruct (subdir d es0) as [m|]; [|discriminate H].
    destruct (islink m); [discriminate H|]. simpl. eapply IH, H.
Qed.

Lemma yields_complete (trail : list string) :
  forall n top top' es,
    dir_at path_join n top trail = Some (top', es) ->
    Forall (fun d => is_pruned_name d = false) trail ->
    In (top', nondirs es) (yields_of path_join n top).
Proof.
  induction trail as [|d trail IH]; intros n top top' es H Hnp;
    destruct n as [r|l [es0|]]; simpl in H; try discriminate H;
    rewrite yields_of_dir.
  - injection H as <- <-. now left.
  - destruct (subdir d es0) as [m|] eqn:E; [|discriminate H].
    destruct (islink m) eqn:El; [discriminate H|].
    inversion Hnp as [|? ? Hd Ht]; subst.
    right. apply in_flat_map. exists d. split.
    + apply pruned_dirs_keeps; [eapply subdir_dir_names, E | exact Hd].
    + unfold yields_below. rewrite E, El. now apply IH.
Qed.

Lemma yields_sound (n : node) :
  names_distinct n = true ->
  forall top y,
    In y (yields_of path_join n top) ->
    exists trail es,
      dir_at path_join n top trail = Some (fst y, es)
      /\ snd y = nondirs es
      /\ Forall (fun d => is_pruned_name d = false) trail.
Proof.
  induction n as [r|l|l es IH] using node_nested_ind; intros Hwf top y Hy;
    try contradiction.
  cbn [names_distinct] in Hwf. apply andb_prop in Hwf. destruct Hwf as [Hnd Hsub].
  rewrite yields_of_dir in Hy. destruct Hy as [<-|Hy].
  - exists [], es. repeat split. constructor.
  - apply in_flat_map in Hy. destruct Hy as [d [Hd Hy]].
    unfold yields_below in Hy.
    destruct (subdir d es) as [m|] eqn:E; [|contradiction].
    destruct (islink m) eqn:El; [contradiction|].
    pose proof (subdir_In _ _ _ E) as [Hin _].
    rewrite Forall_forall in IH. rewrite forallb_forall in Hsub.
    destruct (IH _ Hin (Hsub _ Hin) _ _ Hy) as [trail [es' [H1 [H2 H3]]]].
    exists (d :: trail), es'. repeat split; [|exact H2|].
    + simpl. now rewrite E, El.
    + constructor; [|exact H3].
      eapply pruned_dirs_not_pruned; [|exact Hd].
      unfold dir_names. apply NoDup_map_filter. now apply distinct_NoDup.
Qed.

Lemma In_visited fs roots top name r :
  In (top, name, r) (visited path_join fs roots) <->
  exists root n files,
    In root roots /\ fs root = Some n
    /\ In (top, files) (yields_of path_join n root) /\ In (name, r) files.
Proof.
  unfold visited, yields. rewrite in_flat_map. split.
  - intros [[top' files] [Hy Hin]]. cbn [fst snd] in Hin.
    apply in_map_iff in Hin. destruct Hin as [[name' r'] [E Hin]].
    cbn [fst snd] in E. injection E as -> -> ->.
    apply in_flat_map in Hy. destruct Hy as [root [Hroot Hy]].
    destruct (fs root) as [n|] eqn:Efs; [|contradiction].
    exists root, n, files. repeat split; assumption.
  - intros [root [n [files [Hroot [Efs [Hy Hin]]]]]].
    exists (top, files). split.
    + apply in_flat_map. exists root. split; [exact Hroot|]. now rewrite Efs.
    + cbn [fst snd]. apply in_map_iff. exists (name, r). now split.
Qed.
End Reach.

Section Extras.
Variable path_join : string -> string -> string.
Variable str_list : list string -> string.
Variable open_w : string -> filesystem -> filesystem.


(** X2.  Nothing but pruning and links hides a file: a file in a directory
    reached from a root of the tree that the scan reads ([seen]) through
    listable subdirectories that are neither symbolic links nor called
    [node_modules] or [.git] is met by the scan under the path [os.walk]
    builds; if its suffix is recognized, it gets a Finding when it has more
    than [warn_limit] lines and an error text when reading it raises.  Both
    variants, each on the tree its scan reads. *)
Theorem file_outside_pruned_directories_is_scanned
    fs roots warn_limit fail_limit stdout output_file d seen lf
    root n trail top es name r :
  (seen = fs
   /\ lf = fst (find_large_files.check_files path_join str_list fs roots
                  warn_limit fail_limit stdout))
  \/ (seen = open_w output_file fs
      /\ lf = fst (find_large_files_v2.check_files path_join str_list open_w fs roots
                     warn_limit fail_limit output_file d)) ->
  In root roots ->
  seen root = Some n ->
  dir_at path_join n root trail = Some (top, es) ->
  Forall (fun dirname => is_pruned_name dirname = false) trail ->
  In (name, File r) es ->
  top = fold_left path_join trail root
  /\ In (top, name, r) (visited path_join seen roots)
  /\ (forall ls,
        r = Lines ls -> recognized name = true ->
        warn_limit < Z.of_nat (List.length ls) ->
        exists status,
          In (Z.of_nat (List.length ls), status, path_join top name) lf)
  /\ (forall msg,
        r = Raises msg -> recognized name = true ->
        In (error_text (path_join top name) msg)
           (snd (find_large_files.check_files path_join str_list seen roots
                   warn_limit fail_limit stdout))
        /\ (seen = open_w output_file fs ->
            exists before after,
              snd (find_large_files_v2.check_files path_join str_list open_w fs roots
                     warn_limit fail_limit output_file d) output_file
              = Some (before ++ error_text (path_join top name) msg ++ after))).
Proof.
  intros Hlf Hroot Hfs Hat Hnp Hin.
  apply findings_of_either in Hlf. subst lf.
  assert (Hv : In (top, name, r) (visited path_join seen roots)).
  { apply In_visited. exists root, n, (nondirs es). repeat split; try assumption.
    - now apply yields_complete with (trail := trail).
    - now apply In_nondirs. }
  split; [eapply dir_at_top, Hat|]. split; [exact Hv|]. split.
  - intros ls -> Hr Hgt. eexists.
    apply In_findings; exists top, name, ls; repeat split; assumption.
  - intros msg -> Hr.
    pose proof (In_errors path_join seen roots top name msg Hv Hr) as He.
    rewrite check_files_run, check_files_v2_run. cbn [fst snd]. split.
    + apply in_or_app. right. unfold report_of. right.
      apply in_or_app. now left.
    + intros <-. rewrite close_same. apply in_split in He. destruct He as [e1 [e2 He]].
      unfold report_of. rewrite He.
      exists (String.concat ""
                ((header str_list roots warn_limit fail_limit ++ nl)%string :: e1)).
      eexists. f_equal.
      set (h := (header str_list roots warn_limit fail_limit ++ nl)%string).
      set (l := ([results_text] ++ map result_text _)%list).
      replace (h :: (e1 ++ error_text (path_join top name) msg :: e2) ++ l)%list
        with ((h :: e1) ++ [error_text (path_join top name) msg] ++ e2 ++ l)%list
        by now flatten_apps.
      rewrite !concat_empty_app. reflexivity.
Qed.

(** X3.  Every Finding is for a file in a directory reached from one of
    the roots of the tree that the scan reads ([seen]) through listable
    subdirectories that are neither symbolic links nor called
    [node_modules] or [.git]; its path is the root joined with the names on
    the way and the file name.  Directory entries have different names, as
    on a file system.  Both variants, each on the tree its scan reads. *)
Theorem finding_lies_outside_pruned_and_linked_directories
    fs roots warn_limit fail_limit stdout output_file d seen lf c status p :
  (forall r n, In r roots -> seen r = Some n -> names_distinct n = true) ->
  (seen = fs
   /\ lf = fst (find_large_files.check_files path_join str_list fs roots
                  warn_limit fail_limit stdout))
  \/ (seen = open_w output_file fs
      /\ lf = fst (find_large_files_v2.check_files path_join str_list open_w fs roots
                     warn_limit fail_limit output_file d)) ->
  In (c, status, p) lf ->
  exists root n trail es name ls,
    In root roots
    /\ seen root = Some n
    /\ dir_at path_join n root trail = Some (fold_left path_join trail root, es)
    /\ Forall (fun dirname => is_pruned_name dirname = false) trail
    /\ In (name, File (Lines ls)) es
    /\ recognized name = true
    /\ c = Z.of_nat (List.length ls)
    /\ p = path_join (fold_left path_join trail root) name.
Proof.
  intros Hwf Hlf Hin. apply findings_of_either in Hlf. subst lf.
  apply In_findings in Hin.
  destruct Hin as [top [name [ls [Hv [Hr [Hc [_ [_ Hp]]]]]]]].
  apply In_visited in Hv. destruct Hv as [root [n [files [Hroot [Hfs [Hy Hf]]]]]].
  destruct (yields_sound path_join n (Hwf _ _ Hroot Hfs) _ _ Hy)
    as [trail [es [Hat [Hfiles Hnp]]]].
  cbn [fst snd] in Hat, Hfiles. subst files.
  pose proof (dir_at_top path_join _ _ _ _ _ Hat) as Htop. subst top.
  exists root, n, trail, es, name, ls. repeat split; try assumption.
  now apply In_nondirs.
Qed.

Lemma recorded_paths fs roots warn_limit fail_limit :
  map snd (recorded path_join fs roots warn_limit fail_limit)
  = map (fun v : meeting => path_join (fst (fst v)) (snd (fst v)))
        (filter (over_limit warn_limit) (visited path_join fs roots)).
Proof.
  unfold recorded.
  induction (visited path_join fs roots) as [|[[top name] [ls|e]] vs IH];
    [reflexivity| |exact IH].
  cbn [flat_map filter over_limit found_at].
  destruct (recognized name && (Z.of_nat (List.length ls) >? warn_limit));
    [|exact IH].
  cbn [app map fst snd]. now rewrite IH.
Qed.

(** X4.  One Finding per file: the paths of the Findings are, up to the
    order, the paths of the files met by the scan that have a recognized
    suffix, were read and have more than [warn_limit] lines, each as many
    times as the scan met it; so there are exactly as many Findings as such
    files.  Both variants, each on the tree its scan reads. *)
Theorem one_finding_per_file_over_the_limit
    fs roots warn_limit fail_limit stdout output_file d :
  let run := find_large_files.check_files path_join str_list fs roots
               warn_limit fail_limit stdout in
  let run2 := find_large_files_v2.check_files path_join str_list open_w fs roots
                warn_limit fail_limit output_file d in
  let over (seen : filesystem) :=
    filter (over_limit warn_limit) (visited path_join seen roots) in
  (Permutation (map snd (fst run))
               (map (fun v : meeting => path_join (fst (fst v)) (snd (fst v))) (over fs))
   /\ List.length (fst run) = List.length (over fs))
  /\ (Permutation (map snd (fst run2))
                  (map (fun v : meeting => path_join (fst (fst v)) (snd (fst v)))
                       (over (open_w output_file fs)))
      /\ List.length (fst run2) = List.length (over (open_w output_file fs))).
Proof.
  intros run run2 over. subst run run2 over. cbn beta.
  rewrite check_files_run, check_files_v2_run. cbn [fst].
  assert (P : forall seen,
             Permutation
               (map snd (py_sort_reverse count_of
                           (recorded path_join seen roots warn_limit fail_limit)))
               (map (fun v : meeting => path_join (fst (fst v)) (snd (fst v)))
                    (filter (over_limit warn_limit) (visited path_join seen roots)))).
  { intros seen. rewrite <- (recorded_paths seen roots warn_limit fail_limit).
    apply Permutation_map, Permutation_sym, py_sort_reverse_perm. }
  split; (split; [apply P|]).
  - pose proof (Permutation_length (P fs)) as L. now rewrite !length_map in L.
  - pose proof (Permutation_length (P (open_w output_file fs))) as L.
    now rewrite !length_map in L.
Qed.






(** X8.  Counts are never negative, so with a [warn_limit] that is not
    negative an empty file never gets a Finding, and with a negative
    [warn_limit] every file with a recognized suffix that was read gets
    one, the empty ones included.  Both variants, each on the tree its scan
    reads. *)
Theorem negative_warn_limit_lists_every_file
    fs roots warn_limit fail_limit stdout output_file d seen lf top name ls :
  (seen = fs
   /\ lf = fst (find_large_files.check_files path_join str_list fs roots
                  warn_limit fail_limit stdout))
  \/ (seen = open_w output_file fs
      /\ lf = fst (find_large_files_v2.check_files path_join str_list open_w fs roots
                     warn_limit fail_limit output_file d)) ->
  In (top, name, Lines ls) (visited path_join seen roots) ->
  recognized name = true ->
  (warn_limit < 0 ->
   exists status, In (Z.of_nat (List.length ls), status, path_join top name) lf)
  /\ (0 <= warn_limit -> forall status p, ~ In (0, status, p) lf)
  /\ (forall c status p, In (c, status, p) lf -> 0 <= c).
Proof.
  intros Hlf Hv Hr. apply findings_of_either in Hlf. subst lf.
  split; [|split].
  - intros Hneg. eexists. apply In_findings. exists top, name, ls.
    repeat split; try assumption. lia.
  - intros Hpos status p H. apply In_findings in H.
    destruct H as [? [? [? [_ [_ [_ [H _]]]]]]]. lia.
  - intros c status p H. apply In_findings in H.
    destruct H as [? [? [? [_ [_ [-> _]]]]]]. lia.
Qed.
End Extras.

(** ** The properties on the sample trees *)

Ltac in_list := vm_compute; repeat (first [left; reflexivity | right]).

Lemma sample_names_distinct :
  forall r n, In r default_roots -> sample_fs r = Some n -> names_distinct n = true.
Proof.
  intros r n _ H. unfold sample_fs in H.
  destruct (String.eqb r "src"); [|discriminate H].
  injection H as <-. reflexivity.
Defined.


Lemma finding_iff_over_warn_limit_witness :
  In ("src", "a.ts", Lines (repeat "x" 501)) (visited posix_join sample_fs default_roots)
  /\ recognized "a.ts" = true
  /\ In (501, "WARN", "src/a.ts")
        (fst (find_large_files.main posix_join ascii_str_list sample_fs [])).
Proof.
  assert (Hv : In ("src", "a.ts", Lines (repeat "x" 501))
                  (visited posix_join sample_fs default_roots)) by in_list.
  split; [exact Hv|]. split; [reflexivity|].
  destruct (finding_iff_over_warn_limit posix_join ascii_str_list posix_open_w
              sample_fs default_roots 500 700 [] default_output_file (fun _ => None)
              sample_fs
              (fst (find_large_files.main posix_join ascii_str_list sample_fs []))
              "src" "a.ts" (repeat "x" 501)
              (or_introl (conj eq_refl eq_refl)) Hv eq_refl)
    as [_ [H _]].
  apply H. vm_compute. reflexivity.
Defined.

Lemma count_equal_to_fail_limit_is_warn_witness :
  In ("src", "b.js", Lines (repeat "x" 700)) (visited posix_join sample_fs default_roots)
  /\ recognized "b.js" = true
  /\ Z.of_nat (List.length (repeat "x" 700)) = default_fail_limit
  /\ default_warn_limit < default_fail_limit
  /\ In (700, "WARN", "src/b.js")
        (fst (find_large_files.main posix_join ascii_str_list sample_fs [])).
Proof.
  assert (Hv : In ("src", "b.js", Lines (repeat "x" 700))
                  (visited posix_join sample_fs default_roots)) by in_list.
  repeat (split; [first [exact Hv | reflexivity]|]).
  destruct (count_equal_to_fail_limit_is_warn posix_join ascii_str_list posix_open_w
              sample_fs default_roots default_warn_limit default_fail_limit []
              default_output_file (fun _ => None) sample_fs
              (fst (find_large_files.main posix_join ascii_str_list sample_fs []))
              "src" "b.js" (repeat "x" 700)
              (or_introl (conj eq_refl eq_refl)) Hv eq_refl eq_refl eq_refl)
    as [H _].
  exact H.
Defined.


Example findings_on_their_own_report :
  fst (find_large_files.check_files posix_join ascii_str_list report_fs ["src"]
         2 5 [])
  = [(6, "FAIL", "src/report.html"); (3, "WARN", "src/a.js")]
  /\ fst (find_large_files_v2.check_files posix_join ascii_str_list posix_open_w
            report_fs ["src"] 2 5 "src/report.html" (fun _ => None))
     = [(3, "WARN", "src/a.js")].
Proof. split; vm_compute; reflexivity. Qed.


Lemma read_error_is_reported_and_skipped_witness :
  In ("src/lib", "locked.html", Raises "[Errno 13] Permission denied")
     (visited posix_join sample_fs default_roots)
  /\ recognized "locked.html" = true
  /\ In ("Error reading src/lib/locked.html: [Errno 13] Permission denied" ++ nl)
        (snd (find_large_files.main posix_join ascii_str_list sample_fs []))
  /\ In results_text (snd (find_large_files.main posix_join ascii_str_list sample_fs [])).
Proof.
  assert (Hv : In ("src/lib", "locked.html", Raises "[Errno 13] Permission denied")
                  (visited posix_join sample_fs default_roots)) by in_list.
  split; [exact Hv|]. split; [reflexivity|].
  destruct (proj1 (read_error_is_reported_and_skipped posix_join ascii_str_list
                     posix_open_w sample_fs default_roots default_warn_limit
                     default_fail_limit [] default_output_file (fun _ => None)
                     "src/lib" "locked.html" "[Errno 13] Permission denied" eq_refl)
              Hv)
    as [before [after [E Hres]]].
  change (find_large_files.main posix_join ascii_str_list sample_fs [])
    with (find_large_files.check_files posix_join ascii_str_list sample_fs
            default_roots default_warn_limit default_fail_limit []).
  rewrite E. split.
  - apply in_or_app. right. apply in_or_app. right. now left.
  - apply in_or_app. right. apply in_or_app. right. apply in_or_app. now right.
Defined.

Lemma pruned_directories_contribute_nothing_witness :
  (forall r n, In r default_roots -> sample_fs r = Some n -> names_distinct n = true)
  /\ find_large_files.main posix_join ascii_str_list
       (fun p => option_map empty_pruned (sample_fs p)) []
     = find_large_files.main posix_join ascii_str_list sample_fs [].
Proof.
  split; [exact sample_names_distinct|].
  exact (proj1 (proj2 (pruned_directories_contribute_nothing posix_join ascii_str_list
                         posix_open_w sample_fs default_roots default_warn_limit
                         default_fail_limit [] default_output_file (fun _ => None)
                         sample_fs sample_names_distinct))).
Defined.

Lemma unrecognized_suffix_contributes_nothing_witness :
  (forall suf pre, In suf suffixes -> "d.py" <> pre ++ suf)
  /\ find_large_files.file_step posix_join default_warn_limit default_fail_limit "src"
       ([], []) ("d.py", Lines (repeat "x" 1000)) = ([], []).
Proof.
  assert (H : forall suf pre, In suf suffixes -> "d.py" <> pre ++ suf).
  { intros suf pre Hin E.
    assert (C : py_endswith_any "d.py" suffixes = true)
      by (apply py_endswith_any_spec; exists suf, pre; split; assumption).
    vm_compute in C. discriminate C. }
  split; [exact H|].
  apply (proj1 (proj2 (unrecognized_suffix_contributes_nothing posix_join
                         ascii_str_list posix_open_w "d.py" H))).
Defined.


Lemma count_between_fail_and_warn_limit_has_no_finding_witness :
  500 < 700
  /\ 500 < 600 <= 700
  /\ In ("src/lib", "f.mjs", Lines (repeat "x" 600))
        (visited posix_join sample_fs default_roots)
  /\ forall status p,
       ~ In (600, status, p)
           (fst (find_large_files.check_files posix_join ascii_str_list sample_fs
                   default_roots 700 500 [])).
Proof.
  split; [lia|]. split; [lia|]. split; [in_list|].
  apply (count_between_fail_and_warn_limit_has_no_finding posix_join ascii_str_list
           posix_open_w sample_fs default_roots 700 500 [] default_output_file
           (fun _ => None)
           (fst (find_large_files.check_files posix_join ascii_str_list sample_fs
                   default_roots 700 500 []))
           600); [lia | lia | left; reflexivity].
Defined.

(** The specification's scenario, with the additions of [sample_tree]: the
    report of the console variant and the contents of the report file. *)
Example sample_report :
  find_large_files.main posix_join ascii_str_list sample_fs []
  = ([(701, "FAIL", "src/e.tsx"); (701, "FAIL", "src/lib/c.css");
      (700, "WARN", "src/b.js"); (600, "WARN", "src/lib/f.mjs");
      (501, "WARN", "src/a.ts")],
     ["Checking files in ['src', 'dram-engine/src'] (Warn: 500, Fail: 700)" ++ nl;
      "Error reading src/lib/locked.html: [Errno 13] Permission denied" ++ nl;
      nl ++ "Results:" ++ nl;
      "[FAIL] 701 lines: src/e.tsx" ++ nl;
      "[FAIL] 701 lines: src/lib/c.css" ++ nl;
      "[WARN] 700 lines: src/b.js" ++ nl;
      "[WARN] 600 lines: src/lib/f.mjs" ++ nl;
      "[WARN] 501 lines: src/a.ts" ++ nl]).
Proof. vm_compute. reflexivity. Qed.

(** Pruning applies to the subdirectories met during the walk: a root that
    is itself called [node_modules] is walked. *)
Example root_is_walked_whatever_its_name :
  fst (find_large_files.check_files posix_join ascii_str_list
         (fun p => if String.eqb p "node_modules"
                   then Some (Dir false (Some [("huge.js", file_of_lines 900)]))
                   else None)
         ["node_modules"] default_warn_limit default_fail_limit [])
  = [(900, "FAIL", "node_modules/huge.js")].
Proof. vm_compute. reflexivity. Qed.

Lemma file_outside_pruned_directories_is_scanned_witness :
  In "src" default_roots
  /\ sample_fs "src" = Some sample_tree
  /\ dir_at posix_join sample_tree "src" ["lib"]
     = Some ("src/lib",
             [ ("c.css", file_of_lines 701);
               ("f.mjs", file_of_lines 600);
               ("locked.html", File (Raises "[Errno 13] Permission denied"));
               (".git", Dir false (Some [("hook.js", file_of_lines 800)])) ])
  /\ Forall (fun dirname => is_pruned_name dirname = false) ["lib"]
  /\ In ("src/lib", "c.css", Lines (repeat "x" 701))
        (visited posix_join sample_fs default_roots).
Proof.
  assert (H1 : In "src" default_roots) by (left; reflexivity).
  assert (H4 : Forall (fun dirname => is_pruned_name dirname = false) ["lib"])
    by (repeat constructor).
  split; [exact H1|]. split; [reflexivity|]. split; [reflexivity|].
  split; [exact H4|].
  exact (proj1 (proj2
           (file_outside_pruned_directories_is_scanned posix_join ascii_str_list
              posix_open_w
              sample_fs default_roots default_warn_limit default_fail_limit []
              default_output_file (fun _ => None) sample_fs
              (fst (find_large_files.main posix_join ascii_str_list sample_fs []))
              "src" sample_tree ["lib"] "src/lib" _ "c.css"
              (Lines (repeat "x" 701))
              (or_introl (conj eq_refl eq_refl))
              H1 eq_refl eq_refl H4 (or_introl eq_refl)))).
Defined.

Lemma finding_lies_outside_pruned_and_linked_directories_witness :
  (forall r n, In r default_roots -> sample_fs r = Some n -> names_distinct n = true)
  /\ In (701, "FAIL", "src/lib/c.css")
        (fst (find_large_files.main posix_join ascii_str_list sample_fs []))
  /\ exists root n trail es name ls,
       In root default_roots
       /\ sample_fs root = Some n
       /\ dir_at posix_join n root trail = Some (fold_left posix_join trail root, es)
       /\ Forall (fun dirname => is_pruned_name dirname = false) trail
       /\ In (name, File (Lines ls)) es
       /\ recognized name = true
       /\ 701 = Z.of_nat (List.length ls)
       /\ "src/lib/c.css" = posix_join (fold_left posix_join trail root) name.
Proof.
  assert (Hin : In (701, "FAIL", "src/lib/c.css")
                   (fst (find_large_files.main posix_join ascii_str_list sample_fs [])))
    by in_list.
  split; [exact sample_names_distinct|]. split; [exact Hin|].
  exact (finding_lies_outside_pruned_and_linked_directories posix_join ascii_str_list
           posix_open_w
           sample_fs default_roots default_warn_limit default_fail_limit []
           default_output_file (fun _ => None) sample_fs
           (fst (find_large_files.main posix_join ascii_str_list sample_fs []))
           701 "FAIL" "src/lib/c.css"
           sample_names_distinct (or_introl (conj eq_refl eq_refl)) Hin).
Defined.


Lemma negative_warn_limit_lists_every_file_witness :
  In ("src", "a.ts", Lines (repeat "x" 501)) (visited posix_join sample_fs default_roots)
  /\ recognized "a.ts" = true
  /\ -1 < 0
  /\ exists status,
       In (501, status, "src/a.ts")
          (fst (find_large_files.check_files posix_join ascii_str_list sample_fs
                  default_roots (-1) 700 [])).
Proof.
  assert (Hv : In ("src", "a.ts", Lines (repeat "x" 501))
                  (visited posix_join sample_fs default_roots)) by in_list.
  split; [exact Hv|]. split; [reflexivity|]. split; [lia|].
  apply (negative_warn_limit_lists_every_file posix_join ascii_str_list posix_open_w
           sample_fs default_roots (-1) 700 [] default_output_file (fun _ => None)
           sample_fs
           (fst (find_large_files.check_files posix_join ascii_str_list sample_fs
                   default_roots (-1) 700 []))
           "src" "a.ts" (repeat "x" 501) (or_introl (conj eq_refl eq_refl)) Hv eq_refl).
  lia.
Defined.
